(** * Real-ESRGAN web server: a shallow embedding of [web_server.py]

    The development follows the request handler class [RealESRGANHandler]:
    the GET router and the static file server, the enhance handler and the
    process invoker.  Python text (str) is carried as a [string] holding its
    UTF-8 encoding, Python [bytes] as a list of bytes.  Exceptions are
    values of [exn]; a computation that may raise and that touches the disk,
    the console or the socket lives in the monad [M], whose state survives a
    raised exception, as it does in Python. *)

From Stdlib Require Import ZArith String Ascii List Floats Lia.
From Stdlib.Strings Require Import Byte.
From stdpp Require Import gmap strings list pretty.

Local Open Scope Z_scope.
Local Set Warnings "-register-all".

(** ** Results and exceptions *)

Inductive result (A E : Type) : Type :=
| Ok (a : A)
| Err (e : E).
Arguments Ok {A E} a.
Arguments Err {A E} e.

(** The exception classes the handler can meet.  [JSONDecodeError],
    [UnicodeDecodeError] and [BinasciiError] are subclasses of [ValueError],
    the file classes are subclasses of [OSError]; every one of them is an
    [Exception]. *)
Inductive exn_class : Type :=
| JSONDecodeError
| UnicodeDecodeError
| BinasciiError
| ValueError
| TypeError
| AttributeError
| IndexError
| FileNotFoundError
| FileExistsError
| NotADirectoryError
| IsADirectoryError
| PermissionError
| OSError.

Record exn : Type := Exn { exn_cls : exn_class; exn_str : string }.

(** [isinstance(e, json.JSONDecodeError)] *)
Definition is_JSONDecodeError (e : exn) : bool :=
  match exn_cls e with JSONDecodeError => true | _ => false end.

(** [isinstance(e, FileNotFoundError)] *)
Definition is_FileNotFoundError (e : exn) : bool :=
  match exn_cls e with FileNotFoundError => true | _ => false end.

Definition result_bind {A B E} (r : result A E) (k : A -> result B E) : result B E :=
  match r with
  | Ok a => k a
  | Err e => Err e
  end.

(** ** Python values, as [json.loads] builds them *)

Definition bytes := list byte.

Inductive pyvalue : Type :=
| PyNone
| PyBool (b : bool)
| PyInt (z : Z)
| PyFloat (f : float)
| PyStr (s : string)
| PyList (l : list pyvalue)
| PyDict (d : list (string * pyvalue)).

(** [bool(v)]: what [not image_data] tests. *)
Definition truthy (v : pyvalue) : bool :=
  match v with
  | PyNone => false
  | PyBool b => b
  | PyInt z => negb (z =? 0)
  | PyFloat f => negb (PrimFloat.eqb f 0%float)
  | PyStr s => negb (String.eqb s "")
  | PyList l => match l with [] => false | _ => true end
  | PyDict d => match d with [] => false | _ => true end
  end.

(** [v == ','] for the membership test on a list. *)
Definition py_eq_str (v : pyvalue) (s : string) : bool :=
  match v with
  | PyStr t => String.eqb t s
  | _ => false
  end.

Fixpoint dict_lookup (k : string) (d : list (string * pyvalue)) : option pyvalue :=
  match d with
  | [] => None
  | (k', v) :: rest => if String.eqb k k' then Some v else dict_lookup k rest
  end.

(** [data.get(key)]: [None] for a missing key; only a dict has [get]. *)
Definition py_get (data : pyvalue) (key : string) : result pyvalue exn :=
  match data with
  | PyDict d => Ok (match dict_lookup key d with Some v => v | None => PyNone end)
  | _ => Err (Exn AttributeError "object has no attribute 'get'")
  end.

(** [str(error_msg)] inside an f-string, for a value that is [None] or a str. *)
Definition format_opt (m : option string) : string :=
  match m with
  | Some s => s
  | None => "None"
  end.

(** ** Text *)

Definition comma : ascii := ","%char.
Definition slash : ascii := "/"%char.

(** [c in s] for a one-character [c]. *)
Fixpoint contains_char (c : ascii) (s : string) : bool :=
  match s with
  | EmptyString => false
  | String a rest => if Ascii.eqb a c then true else contains_char c rest
  end.

(** [s.split(c)]: every separator cuts, so the list is never empty. *)
Fixpoint str_split (c : ascii) (s : string) : list string :=
  match s with
  | EmptyString => [EmptyString]
  | String a rest =>
      if Ascii.eqb a c then EmptyString :: str_split c rest
      else match str_split c rest with
           | hd :: tl => String a hd :: tl
           | [] => [String a EmptyString]
           end
  end.

(** [sep.join(l)] *)
Fixpoint str_join (sep : string) (l : list string) : string :=
  match l with
  | [] => ""
  | [x] => x
  | x :: rest => x +:+ sep +:+ str_join sep rest
  end.

(** [s.startswith(p)] *)
Fixpoint startswith (p s : string) : bool :=
  match p, s with
  | EmptyString, _ => true
  | String a p', String b s' => if Ascii.eqb a b then startswith p' s' else false
  | String _ _, EmptyString => false
  end.

(** [s[1:]] *)
Definition drop_first (s : string) : string :=
  match s with
  | EmptyString => EmptyString
  | String _ rest => rest
  end.

(** [a or b] on two str values. *)
Definition str_or (a b : string) : string :=
  if String.eqb a "" then b else a.

(** *** UTF-8 *)

Definition in_range (lo hi b : N) : bool := ((lo <=? b) && (b <=? hi))%N.
Definition cont (b : N) : bool := in_range 128 191 b.

(** Well-formed UTF-8 byte sequences (no overlong forms, no surrogates,
    nothing above U+10FFFF), which is what the strict codec accepts. *)
Fixpoint utf8_valid (bs : list N) : bool :=
  match bs with
  | [] => true
  | b0 :: r0 =>
      if (b0 <? 128)%N then utf8_valid r0
      else if in_range 194 223 b0 then
        match r0 with
        | b1 :: r1 => cont b1 && utf8_valid r1
        | _ => false
        end
      else if in_range 224 239 b0 then
        match r0 with
        | b1 :: b2 :: r2 =>
            (if (b0 =? 224)%N then in_range 160 191 b1
             else if (b0 =? 237)%N then in_range 128 159 b1
             else cont b1)
            && cont b2 && utf8_valid r2
        | _ => false
        end
      else if in_range 240 244 b0 then
        match r0 with
        | b1 :: b2 :: b3 :: r3 =>
            (if (b0 =? 240)%N then in_range 144 191 b1
             else if (b0 =? 244)%N then in_range 128 143 b1
             else cont b1)
            && cont b2 && cont b3 && utf8_valid r3
        | _ => false
        end
      else false
  end.

(** What the strict codec raises. *)
Definition UTF8_ERROR : exn :=
  Exn UnicodeDecodeError "'utf-8' codec can't decode bytes".

(** [post_data.decode('utf-8')] *)
Definition decode_utf8 (post_data : bytes) : result string exn :=
  if utf8_valid (map Byte.to_N post_data)
  then Ok (string_of_list_byte post_data)
  else Err UTF8_ERROR.

(** [s.encode('utf-8')] on text held as its encoding. *)
Definition encode_utf8 (s : string) : bytes := list_byte_of_string s.

(** *** Decimal numerals and header names *)

(** [str(n)] for a length. *)
Definition str_of_nat (n : nat) : string := pretty (N.of_nat n).

Definition lower_ascii (a : ascii) : ascii :=
  let n := N_of_ascii a in
  if in_range 65 90 n then ascii_of_N (n + 32) else a.

(** [s.lower()] on the ASCII letters, for header names. *)
Fixpoint str_lower (s : string) : string :=
  match s with
  | EmptyString => EmptyString
  | String a rest => String (lower_ascii a) (str_lower rest)
  end.

(** ** Paths *)

(** A [pathlib] path: whether it is anchored at the root, and its parts.
    Empty parts and ["."] are dropped when a path is built; [".."] is kept. *)
Record Path : Type := mkPath { absolute : bool; parts : list string }.

Definition keep_part (c : string) : bool :=
  negb (String.eqb c "") && negb (String.eqb c ".").

(** [Path(s)] *)
Definition Path_of (s : string) : Path :=
  mkPath (startswith "/" s) (List.filter keep_part (str_split slash s)).

(** [p / s]: an absolute right operand replaces the left one. *)
Definition truediv (p : Path) (s : string) : Path :=
  let q := Path_of s in
  if absolute q then q
  else mkPath (absolute p) (parts p ++ parts q).

(** [str(p)] *)
Definition Path_str (p : Path) : string :=
  match absolute p, parts p with
  | false, [] => "."
  | false, ps => str_join "/" ps
  | true, ps => "/" +:+ str_join "/" ps
  end.

(** [os.path.isabs(s)] *)
Definition os_path_isabs (s : string) : bool := startswith "/" s.

Fixpoint drop_trailing_empty (l : list string) : list string :=
  match l with
  | [] => []
  | x :: rest =>
      match drop_trailing_empty rest with
      | [] => if String.eqb x "" then [] else [x]
      | rest' => x :: rest'
      end
  end.

(** [os.path.dirname(s)]: the text before the last slash, without its
    trailing slashes unless it consists of slashes only. *)
Definition os_path_dirname (s : string) : string :=
  match removelast (str_split slash s) with
  | [] => ""
  | init =>
      match drop_trailing_empty init with
      | [] => str_join "/" init +:+ "/"
      | init' => str_join "/" init'
      end
  end.

(** ** The file system *)

(** A tree of directories and regular files, keyed by the canonical list of
    names from the root.  The root itself is always a directory.  Relative
    names are resolved from the root, which stands for the working
    directory; there are no links and no permissions. *)
Inductive node : Type :=
| File (content : bytes)
| Dir.

Definition node_at (fs : gmap (list string) node) (c : list string) : option node :=
  match c with
  | [] => Some Dir
  | _ => fs !! c
  end.

Definition ENOENT : exn := Exn FileNotFoundError "[Errno 2] No such file or directory".
Definition ENOTDIR : exn := Exn NotADirectoryError "[Errno 20] Not a directory".
Definition EISDIR : exn := Exn IsADirectoryError "[Errno 21] Is a directory".
Definition EEXIST : exn := Exn FileExistsError "[Errno 17] File exists".

(** Name resolution, one component at a time: a component is looked up in
    [cur], which has to be a directory by then.  [".."] is resolved here, by
    the file system, not by [pathlib]. *)
Fixpoint walk (fs : gmap (list string) node) (cur : list string) (comps : list string)
  : result (list string) exn :=
  match comps with
  | [] => Ok cur
  | c :: rest =>
      match node_at fs cur with
      | Some Dir =>
          if String.eqb c "" || String.eqb c "." then walk fs cur rest
          else if String.eqb c ".." then walk fs (removelast cur) rest
          else walk fs (cur ++ [c]) rest
      | Some (File _) => Err ENOTDIR
      | None => Err ENOENT
      end
  end.

Definition resolve (fs : gmap (list string) node) (name : string) : result (list string) exn :=
  walk fs [] (str_split slash name).

(** [os.path.exists] / [Path.exists]: a failed lookup is [False]. *)
Definition fs_exists (fs : gmap (list string) node) (name : string) : bool :=
  match resolve fs name with
  | Ok c => match node_at fs c with Some _ => true | None => false end
  | Err _ => false
  end.

(** [Path.mkdir(exist_ok=True)]: one level, the parent has to be there. *)
Definition fs_mkdir (fs : gmap (list string) node) (name : string)
  : result (gmap (list string) node) exn :=
  match resolve fs name with
  | Err e => Err e
  | Ok c =>
      match node_at fs c with
      | Some Dir => Ok fs
      | Some (File _) => Err EEXIST
      | None => Ok (<[c := Dir]> fs)
      end
  end.

(** [os.makedirs(name, exist_ok=True)]: every missing level is created. *)
Fixpoint makedirs_from (fs : gmap (list string) node) (cur : list string) (comps : list string)
  : result (gmap (list string) node) exn :=
  match comps with
  | [] => Ok fs
  | c :: rest =>
      if String.eqb c "" || String.eqb c "." then makedirs_from fs cur rest
      else if String.eqb c ".." then makedirs_from fs (removelast cur) rest
      else
        let next := cur ++ [c] in
        match node_at fs next with
        | Some Dir => makedirs_from fs next rest
        | Some (File _) => Err (match rest with [] => EEXIST | _ => ENOTDIR end)
        | None => makedirs_from (<[next := Dir]> fs) next rest
        end
  end.

Definition fs_makedirs (fs : gmap (list string) node) (name : string)
  : result (gmap (list string) node) exn :=
  if String.eqb name "" then Err ENOENT
  else makedirs_from fs [] (str_split slash name).

(** [with open(name, 'wb') as f: f.write(data)] *)
Definition fs_write (fs : gmap (list string) node) (name : string) (data : bytes)
  : result (gmap (list string) node) exn :=
  match resolve fs name with
  | Err e => Err e
  | Ok c =>
      match node_at fs c with
      | Some Dir => Err EISDIR
      | _ => Ok (<[c := File data]> fs)
      end
  end.

(** [with open(name, 'rb') as f: f.read()] *)
Definition fs_read (fs : gmap (list string) node) (name : string) : result bytes exn :=
  match resolve fs name with
  | Err e => Err e
  | Ok c =>
      match node_at fs c with
      | Some (File data) => Ok data
      | Some Dir => Err EISDIR
      | None => Err ENOENT
      end
  end.

(** [Path.unlink()].  The tree does not say whether the system lets go of
    a file that is there: a read-only directory, or a file another process
    still holds open, makes the call fail although the file exists.
    [refusal] is what the system raises then, [None] when it removes the
    file. *)
Definition fs_unlink (refusal : option exn) (fs : gmap (list string) node)
    (name : string) : result (gmap (list string) node) exn :=
  match resolve fs name with
  | Err e => Err e
  | Ok c =>
      match node_at fs c with
      | Some (File _) =>
          match refusal with
          | Some e => Err e
          | None => Ok (delete c fs)
          end
      | Some Dir => Err EISDIR
      | None => Err ENOENT
      end
  end.


(** ** Requests, responses and effects *)

Record request : Type := Request {
  req_path : string;                          (* self.path *)
  req_headers : list (string * string);       (* self.headers *)
  rfile : bytes                               (* what self.rfile holds *)
}.

(** [self.headers[name]]: the first header of that name, whatever its case,
    [None] when there is none. *)
Fixpoint headers_get (hs : list (string * string)) (name : string) : option string :=
  match hs with
  | [] => None
  | (k, v) :: rest =>
      if String.eqb (str_lower k) (str_lower name) then Some v
      else headers_get rest name
  end.

(** [self.rfile.read(n)]: at most [n] bytes, everything for a negative [n]. *)
Definition rfile_read (data : bytes) (n : Z) : bytes :=
  if n <? 0 then data else firstn (Z.to_nat n) data.

(** What goes out on the socket: a JSON document (kept as the dict given to
    [json.dumps]), the bytes of a file, or the error page of [send_error]. *)
Inductive body : Type :=
| BodyJson (data : list (string * pyvalue))
| BodyBytes (content : bytes)
| BodyError (message : string).

Record response : Type := Response {
  status : Z;
  headers : list (string * string);
  payload : body
}.

Record completed_process : Type := Completed {
  returncode : Z;
  stdout : string;
  stderr : string
}.

(** Every call that leaves the interpreter, in the order it is made. *)
Inductive event : Type :=
| E_mkdir (name : string)
| E_makedirs (name : string)
| E_write (name : string) (data : bytes)
| E_read (name : string)
| E_unlink (name : string)
| E_exists (name : string)
| E_run (cmd : list string) (cwd : string)
| E_print (line : string)
| E_respond (r : response).

(** The calls that touch the disk or start a process. *)
Definition is_file_io (ev : event) : bool :=
  match ev with
  | E_print _ | E_respond _ => false
  | _ => true
  end.



Definition is_run (ev : event) : bool :=
  match ev with E_run _ _ => true | _ => false end.

(** The responses of a run, in order. *)
Fixpoint responses (evs : list event) : list response :=
  match evs with
  | [] => []
  | E_respond r :: rest => r :: responses rest
  | _ :: rest => responses rest
  end.

(** The state a handler works on: the disk, and how many identifiers
    [uuid.uuid4] has handed out. *)
Record state : Type := State {
  st_fs : gmap (list string) node;
  st_uuid : nat
}.

(** ** The monad of handler code

    A computation gets the state and gives back a value or a raised
    exception, the state it leaves, and the calls it made.  A raise keeps
    the state and the calls made so far. *)
Definition M (A : Type) : Type := state -> result A exn * state * list event.

Definition ret {A} (a : A) : M A := fun st => (Ok a, st, []).

Definition raise {A} (e : exn) : M A := fun st => (Err e, st, []).

Definition bind {A B} (m : M A) (k : A -> M B) : M B :=
  fun st =>
    match m st with
    | (Ok a, st1, evs1) =>
        match k a st1 with
        | (r, st2, evs2) => (r, st2, evs1 ++ evs2)
        end
    | (Err e, st1, evs1) => (Err e, st1, evs1)
    end.

(** [try: m  except Exception as e: h e] *)
Definition try_except {A} (m : M A) (h : exn -> M A) : M A :=
  fun st =>
    match m st with
    | (Ok a, st1, evs1) => (Ok a, st1, evs1)
    | (Err e, st1, evs1) =>
        match h e st1 with
        | (r, st2, evs2) => (r, st2, evs1 ++ evs2)
        end
    end.

(** A pure step that may raise. *)
Definition lift {A} (r : result A exn) : M A := fun st => (r, st, []).

Definition emit (ev : event) : M unit := fun st => (Ok tt, st, [ev]).

Declare Scope py_scope.
Delimit Scope py_scope with py.
Notation "x <- m ;; k" := (bind m (fun x => k))
  (at level 100, m at next level, right associativity) : py_scope.
Notation "m ;; k" := (bind m (fun _ => k))
  (at level 100, right associativity) : py_scope.
Local Open Scope py_scope.

(** A disk operation: log the call, then change the disk or raise. *)
Definition fs_update (ev : event)
    (op : gmap (list string) node -> result (gmap (list string) node) exn) : M unit :=
  fun st =>
    match op (st_fs st) with
    | Ok fs' => (Ok tt, State fs' (st_uuid st), [ev])
    | Err e => (Err e, st, [ev])
    end.

Definition mkdir (p : Path) : M unit :=
  fs_update (E_mkdir (Path_str p)) (fun fs => fs_mkdir fs (Path_str p)).

Definition os_makedirs (name : string) : M unit :=
  fs_update (E_makedirs name) (fun fs => fs_makedirs fs name).

Definition write_file (name : string) (data : bytes) : M unit :=
  fs_update (E_write name data) (fun fs => fs_write fs name data).

Definition read_file (name : string) : M bytes :=
  fun st => (fs_read (st_fs st) name, st, [E_read name]).

Definition exists_ (p : Path) : M bool :=
  fun st => (Ok (fs_exists (st_fs st) (Path_str p)), st, [E_exists (Path_str p)]).

Definition print (line : string) : M unit := emit (E_print line).

(** ** The platform

    What the handler takes from the Python library and from the machine:
    the JSON and base64 codecs, [int], [urlparse], [mimetypes], the random
    identifiers and the external program, which may change the disk in any
    way while it runs; and whether the system, asked to remove a file that
    is there, refuses. *)
Class Platform : Type := {
  json_loads : string -> result pyvalue exn;
  json_dumps : list (string * pyvalue) -> string;
  b64decode : string -> result bytes exn;
  int_of_str : string -> result Z exn;
  urlparse_path : string -> string;
  guess_type : string -> option string;
  uuid4_hex : nat -> string;
  subprocess_run :
    list string -> string -> gmap (list string) node ->
    result completed_process exn * gmap (list string) node;
  unlink_refusal : string -> gmap (list string) node -> option exn
}.

(** [p.unlink()] *)
Definition unlink `{Platform} (p : Path) : M unit :=
  fs_update (E_unlink (Path_str p))
    (fun fs => fs_unlink (unlink_refusal (Path_str p) fs) fs (Path_str p)).

(** What [int(None)] raises. *)
Definition INT_NONE_ERROR : exn :=
  Exn TypeError
    "int() argument must be a string, a bytes-like object or a real number, not 'NoneType'".

(** [int(x)] for a header value: [None] is not a number. *)
Definition py_int `{Platform} (x : option string) : result Z exn :=
  match x with
  | Some s => int_of_str s
  | None => Err INT_NONE_ERROR
  end.

(** [',' in v] *)
Definition py_contains_comma (v : pyvalue) : result bool exn :=
  match v with
  | PyStr s => Ok (contains_char comma s)
  | PyList l => Ok (existsb (fun x => py_eq_str x ",") l)
  | PyDict d => Ok (existsb (fun kv => String.eqb (fst kv) ",") d)
  | _ => Err (Exn TypeError "argument is not iterable")
  end.

(** [v.split(',')[1]] *)
Definition py_split_comma_1 (v : pyvalue) : result pyvalue exn :=
  match v with
  | PyStr s =>
      match nth_error (str_split comma s) 1 with
      | Some x => Ok (PyStr x)
      | None => Err (Exn IndexError "list index out of range")
      end
  | _ => Err (Exn AttributeError "object has no attribute 'split'")
  end.

(** [base64.b64decode(v)] *)
Definition base64_b64decode `{Platform} (v : pyvalue) : result bytes exn :=
  match v with
  | PyStr s => b64decode s
  | _ => Err (Exn TypeError "argument should be a bytes-like object or ASCII string")
  end.

(** [uuid.uuid4().hex] *)
Definition uuid4 `{Platform} : M string :=
  fun st => (Ok (uuid4_hex (st_uuid st)), State (st_fs st) (S (st_uuid st)), []).

(** [subprocess.run(cmd, capture_output=True, text=True, cwd=cwd)] *)
Definition run_process `{Platform} (cmd : list string) (cwd : string) : M completed_process :=
  fun st =>
    match subprocess_run cmd cwd (st_fs st) with
    | (r, fs') => (r, State fs' (st_uuid st), [E_run cmd cwd])
    end.

(** ** Messages *)

Definition MSG_NO_IMAGE : string := "لم يتم العثور على بيانات الصورة".
Definition MSG_DECODE_PREFIX : string := "خطأ في فك تشفير الصورة: ".
Definition MSG_SUCCESS : string := "تم تحسين الصورة بنجاح!".
Definition MSG_FAIL_PREFIX : string := "فشل في تحسين الصورة: ".
Definition MSG_BAD_JSON : string := "بيانات JSON غير صالحة".
Definition MSG_SERVER_PREFIX : string := "خطأ في الخادم: ".
Definition MSG_EXE_MISSING : string := "ملف Real-ESRGAN غير موجود".
Definition MSG_UNKNOWN : string := "خطأ غير معروف".

Definition EXE_NAME : string := "realesrgan-ncnn-vulkan.exe".

(** ** The handler *)

Section Handler.

Context {P : Platform}.
Variable base_path : Path.        (* self.base_path *)

(** [send_error(code, message)] of the library: an error page. *)
Definition send_error (code : Z) (message : string) : M unit :=
  emit (E_respond (Response code [] (BodyError message))).

Definition send_json_response (data : list (string * pyvalue)) (status_code : Z) : M unit :=
  let response := encode_utf8 (json_dumps data) in
  emit (E_respond (Response status_code
    [("Content-Type", "application/json; charset=utf-8");
     ("Content-Length", str_of_nat (length response));
     ("Access-Control-Allow-Origin", "*");
     ("Access-Control-Allow-Methods", "GET, POST, OPTIONS");
     ("Access-Control-Allow-Headers", "Content-Type")]
    (BodyJson data))).

Definition serve_file (file_path : string) : M unit :=
  try_except
    (let file_path :=
       if negb (os_path_isabs file_path)
       then Path_str (truediv base_path file_path)
       else file_path in
     content <- read_file file_path ;;
     let content_type :=
       match guess_type file_path with
       | Some t => t
       | None => "application/octet-stream"
       end in
     emit (E_respond (Response 200
       [("Content-Type", content_type);
        ("Content-Length", str_of_nat (length content));
        ("Access-Control-Allow-Origin", "*")]
       (BodyBytes content))))
    (fun e =>
       if is_FileNotFoundError e then send_error 404 "File not found"
       else
         print ("Error serving file: " +:+ exn_str e) ;;
         send_error 500 "Internal server error").

(** The name handed to the disk for a request under [/results/]:
    [self.base_path / path[1:]]. *)
Definition results_file_path (path : string) : Path :=
  truediv base_path (drop_first path).

Definition do_GET (req : request) : M unit :=
  let path := urlparse_path (req_path req) in
  if String.eqb path "/" || String.eqb path "/index.html" then
    serve_file "web_interface.html"
  else if startswith "/results/" path then
    let file_path := results_file_path path in
    found <- exists_ file_path ;;
    if found then serve_file (Path_str file_path)
    else send_error 404 "File not found"
  else
    send_error 404 "Page not found".

Definition run_realesrgan (input_path output_path : string) : M (bool * option string) :=
  try_except
    (os_makedirs (os_path_dirname output_path) ;;
     let exe_path := truediv base_path EXE_NAME in
     found <- exists_ exe_path ;;
     if negb found then ret (false, Some MSG_EXE_MISSING)
     else
       let cmd :=
         [Path_str exe_path;
          "-i"; input_path;
          "-o"; output_path;
          "-n"; "realesrgan-x4plus";
          "-t"; "256";
          "-j"; "1:1:1"] in
       print ("Running command: " +:+ str_join " " cmd) ;;
       result <- run_process cmd (Path_str base_path) ;;
       if returncode result =? 0 then ret (true, None)
       else
         let error_msg := str_or (stderr result) (str_or (stdout result) MSG_UNKNOWN) in
         print ("Real-ESRGAN error: " +:+ error_msg) ;;
         ret (false, Some error_msg))
    (fun e =>
       print ("Exception in run_realesrgan: " +:+ exn_str e) ;;
       ret (false, Some (exn_str e))).

(** The text handed to the decoder: lines 91-92. *)
Definition strip_prefix (image_data : pyvalue) : result pyvalue exn :=
  result_bind (py_contains_comma image_data) (fun has_comma =>
    if has_comma then py_split_comma_1 image_data else Ok image_data).

(** The body of the inner [try]: lines 91-94. *)
Definition decode_step (image_data : pyvalue) : result bytes exn :=
  result_bind (strip_prefix image_data) base64_b64decode.

Definition handle_enhance_request (req : request) : M unit :=
  try_except
    (content_length <- lift (py_int (headers_get (req_headers req) "Content-Length")) ;;
     let post_data := rfile_read (rfile req) content_length in
     text <- lift (decode_utf8 post_data) ;;
     data <- lift (json_loads text) ;;
     image_data <- lift (py_get data "image") ;;
     if negb (truthy image_data) then
       send_json_response [("error", PyStr MSG_NO_IMAGE)] 400
     else
       match decode_step image_data with
       | Err e =>
           send_json_response [("error", PyStr (MSG_DECODE_PREFIX +:+ exn_str e))] 400
       | Ok image_bytes =>
           let temp_dir := truediv base_path "temp" in
           mkdir temp_dir ;;
           u1 <- uuid4 ;;
           let input_filename := "input_" +:+ u1 +:+ ".jpg" in
           u2 <- uuid4 ;;
           let output_filename := "output_" +:+ u2 +:+ ".jpg" in
           let input_path := truediv temp_dir input_filename in
           let output_path := truediv (truediv base_path "results") output_filename in
           write_file (Path_str input_path) image_bytes ;;
           outcome <- run_realesrgan (Path_str input_path) (Path_str output_path) ;;
           let '(success, error_msg) := outcome in
           try_except (unlink input_path) (fun _ => ret tt) ;;
           produced <- (if success then exists_ output_path else ret false) ;;
           if success && produced then
             let result_url := "/results/" +:+ output_filename in
             send_json_response
               [("success", PyBool true);
                ("enhanced_image_url", PyStr result_url);
                ("message", PyStr MSG_SUCCESS)] 200
           else
             send_json_response
               [("error", PyStr (MSG_FAIL_PREFIX +:+ format_opt error_msg))] 500
       end)
    (fun e =>
       if is_JSONDecodeError e then
         send_json_response [("error", PyStr MSG_BAD_JSON)] 400
       else
         print ("Error in enhance request: " +:+ exn_str e) ;;
         send_json_response [("error", PyStr (MSG_SERVER_PREFIX +:+ exn_str e))] 500).


Definition do_OPTIONS (req : request) : M unit :=
  emit (E_respond (Response 200
    [("Access-Control-Allow-Origin", "*");
     ("Access-Control-Allow-Methods", "GET, POST, OPTIONS");
     ("Access-Control-Allow-Headers", "Content-Type")]
    (BodyBytes []))).

End Handler.

(** ** A platform to run the handler on

    Stand-ins for the library and for the external program, so that the
    handler can be evaluated on concrete requests.  [b64decode] follows the
    lenient decoder of [binascii] (characters outside the alphabet are
    skipped).  [json_loads] reads the part of JSON the examples use:
    objects, arrays, strings without escapes, integers and the three
    literals; anything else is reported as a [JSONDecodeError]. *)
Module Sample.

Definition dquote : ascii := "034"%char.
Definition backslash : ascii := "092"%char.

Definition is_ws (c : ascii) : bool :=
  let n := N_of_ascii c in
  ((n =? 32) || (n =? 9) || (n =? 10) || (n =? 13))%N.

Definition is_digit (c : ascii) : bool := in_range 48 57 (N_of_ascii c).

Fixpoint skip_ws (s : string) : string :=
  match s with
  | String c r => if is_ws c then skip_ws r else s
  | EmptyString => s
  end.

(** The text of a string literal after its opening quote, and what follows
    the closing quote. *)
Fixpoint scan_string (s : string) : option (string * string) :=
  match s with
  | EmptyString => None
  | String c r =>
      if Ascii.eqb c dquote then Some (EmptyString, r)
      else if Ascii.eqb c backslash || (N_of_ascii c <? 32)%N then None
      else match scan_string r with
           | Some (t, r') => Some (String c t, r')
           | None => None
           end
  end.

Fixpoint scan_digits (s : string) (acc : Z) : Z * string :=
  match s with
  | String c r =>
      if is_digit c then scan_digits r (10 * acc + (Z.of_N (N_of_ascii c) - 48))
      else (acc, s)
  | EmptyString => (acc, s)
  end.

(** An integer literal: no leading zero, no fraction, no exponent. *)
Definition scan_int (s : string) : option (Z * string) :=
  let '(neg, s1) :=
    match s with
    | String "-" r => (true, r)
    | _ => (false, s)
    end in
  match s1 with
  | String c r =>
      if is_digit c then
        let '(n, rest) := scan_digits s1 0 in
        match rest with
        | String d _ =>
            if Ascii.eqb d "." || Ascii.eqb d "e" || Ascii.eqb d "E" then None
            else if Ascii.eqb c "0" && negb (String.eqb r rest) then None
            else Some (if neg then - n else n, rest)
        | EmptyString =>
            if Ascii.eqb c "0" && negb (String.eqb r rest) then None
            else Some (if neg then - n else n, rest)
        end
      else None
  | EmptyString => None
  end.

(** [d[k] = v]: a later member replaces an earlier one of the same name. *)
Fixpoint dict_set (d : list (string * pyvalue)) (k : string) (v : pyvalue)
  : list (string * pyvalue) :=
  match d with
  | [] => [(k, v)]
  | (k', v') :: rest =>
      if String.eqb k k' then (k, v) :: rest else (k', v') :: dict_set rest k v
  end.

Fixpoint parse_value (fuel : nat) (s : string) : option (pyvalue * string) :=
  match fuel with
  | O => None
  | S fuel' =>
      match skip_ws s with
      | EmptyString => None
      | String c r =>
          if Ascii.eqb c dquote then
            match scan_string r with
            | Some (t, r') => Some (PyStr t, r')
            | None => None
            end
          else if Ascii.eqb c "[" then
            match skip_ws r with
            | String "]" r' => Some (PyList [], r')
            | _ =>
                match parse_elems fuel' r with
                | Some (vs, r') => Some (PyList vs, r')
                | None => None
                end
            end
          else if Ascii.eqb c "{" then
            match skip_ws r with
            | String "}" r' => Some (PyDict [], r')
            | _ =>
                match parse_members fuel' r [] with
                | Some (d, r') => Some (PyDict d, r')
                | None => None
                end
            end
          else if startswith "null" (String c r) then
            Some (PyNone, String.substring 4 (String.length r) (String c r))
          else if startswith "true" (String c r) then
            Some (PyBool true, String.substring 4 (String.length r) (String c r))
          else if startswith "false" (String c r) then
            Some (PyBool false, String.substring 5 (String.length r) (String c r))
          else
            match scan_int (String c r) with
            | Some (n, r') => Some (PyInt n, r')
            | None => None
            end
      end
  end
with parse_elems (fuel : nat) (s : string) : option (list pyvalue * string) :=
  match fuel with
  | O => None
  | S fuel' =>
      match parse_value fuel' s with
      | Some (v, r) =>
          match skip_ws r with
          | String "," r' =>
              match parse_elems fuel' r' with
              | Some (vs, r'') => Some (v :: vs, r'')
              | None => None
              end
          | String "]" r' => Some ([v], r')
          | _ => None
          end
      | None => None
      end
  end
with parse_members (fuel : nat) (s : string) (d : list (string * pyvalue))
  : option (list (string * pyvalue) * string) :=
  match fuel with
  | O => None
  | S fuel' =>
      match skip_ws s with
      | String c r =>
          if Ascii.eqb c dquote then
            match scan_string r with
            | Some (k, r1) =>
                match skip_ws r1 with
                | String ":" r2 =>
                    match parse_value fuel' r2 with
                    | Some (v, r3) =>
                        match skip_ws r3 with
                        | String "," r4 => parse_members fuel' r4 (dict_set d k v)
                        | String "}" r4 => Some (dict_set d k v, r4)
                        | _ => None
                        end
                    | None => None
                    end
                | _ => None
                end
            | None => None
            end
          else None
      | EmptyString => None
      end
  end.

Definition json_loads (text : string) : result pyvalue exn :=
  match parse_value (2 * String.length text + 2) text with
  | Some (v, rest) =>
      match skip_ws rest with
      | EmptyString => Ok v
      | _ => Err (Exn JSONDecodeError "Extra data")
      end
  | None => Err (Exn JSONDecodeError "Expecting value")
  end.

Definition quoted (s : string) : string :=
  String dquote (s +:+ String dquote EmptyString).

Fixpoint escape (s : string) : string :=
  match s with
  | EmptyString => EmptyString
  | String c r =>
      if Ascii.eqb c dquote || Ascii.eqb c backslash
      then String backslash (String c (escape r))
      else String c (escape r)
  end.

(** The values the handler answers with are texts and booleans; what else
    may stand in a dict is written as [null]. *)
Definition dumps_value (v : pyvalue) : string :=
  match v with
  | PyStr t => quoted (escape t)
  | PyBool true => "true"
  | PyBool false => "false"
  | PyInt z => pretty z
  | _ => "null"
  end.

Fixpoint dumps_members (d : list (string * pyvalue)) : string :=
  match d with
  | [] => EmptyString
  | [(k, v)] => quoted (escape k) +:+ ": " +:+ dumps_value v
  | (k, v) :: rest =>
      quoted (escape k) +:+ ": " +:+ dumps_value v +:+ ", " +:+ dumps_members rest
  end.

(** [json.dumps(d, ensure_ascii=False)] *)
Definition json_dumps (d : list (string * pyvalue)) : string :=
  "{" +:+ dumps_members d +:+ "}".

(** *** base64 *)

Definition b64_value (c : ascii) : option N :=
  let n := N_of_ascii c in
  if in_range 65 90 n then Some (n - 65)%N
  else if in_range 97 122 n then Some (n - 71)%N
  else if in_range 48 57 n then Some (n + 4)%N
  else if (n =? 43)%N then Some 62%N
  else if (n =? 47)%N then Some 63%N
  else None.

Definition byte_of (n : N) : byte :=
  match Byte.of_N (n mod 256) with
  | Some b => b
  | None => x00
  end.

(** The decoding loop: [quad_pos] counts the digits of the current group,
    [leftchar] holds the bits not yet written, [pads] the padding seen
    since the last digit; [out] is the output so far, last byte first. *)
Fixpoint a2b_base64 (s : string) (quad_pos : nat) (leftchar : N) (pads : nat) (out : bytes)
  : result bytes exn :=
  match s with
  | EmptyString =>
      match quad_pos with
      | O => Ok (rev out)
      | S O =>
          Err (Exn BinasciiError
            ("Invalid base64-encoded string: number of data characters ("
             +:+ str_of_nat (length out / 3 * 4 + 1)
             +:+ ") cannot be 1 more than a multiple of 4"))
      | _ => Err (Exn BinasciiError "Incorrect padding")
      end
  | String c r =>
      if Ascii.eqb c "=" then
        if (2 <=? quad_pos)%nat then
          if (4 <=? quad_pos + S pads)%nat then Ok (rev out)
          else a2b_base64 r quad_pos leftchar (S pads) out
        else a2b_base64 r quad_pos leftchar pads out
      else
        match b64_value c with
        | None => a2b_base64 r quad_pos leftchar pads out
        | Some v =>
            match quad_pos with
            | O => a2b_base64 r 1 v 0 out
            | S O =>
                a2b_base64 r 2 (N.land v 15) 0
                  (byte_of (N.lor (N.shiftl leftchar 2) (N.shiftr v 4)) :: out)
            | S (S O) =>
                a2b_base64 r 3 (N.land v 3) 0
                  (byte_of (N.lor (N.shiftl leftchar 4) (N.shiftr v 2)) :: out)
            | _ =>
                a2b_base64 r 0 0%N 0
                  (byte_of (N.lor (N.shiftl leftchar 6) v) :: out)
            end
        end
  end.

Fixpoint is_ascii_str (s : string) : bool :=
  match s with
  | EmptyString => true
  | String c r => (N_of_ascii c <? 128)%N && is_ascii_str r
  end.

Definition b64decode (s : string) : result bytes exn :=
  if is_ascii_str s then a2b_base64 s 0 0%N 0 []
  else Err (Exn ValueError "string argument should contain only ASCII characters").

(** *** int, urlparse, mimetypes, uuid *)

Definition int_of_str (s : string) : result Z exn :=
  match s with
  | String c _ =>
      if is_digit c then
        match scan_digits s 0 with
        | (n, EmptyString) => Ok n
        | _ => Err (Exn ValueError "invalid literal for int() with base 10")
        end
      else Err (Exn ValueError "invalid literal for int() with base 10")
  | EmptyString => Err (Exn ValueError "invalid literal for int() with base 10")
  end.

(** The path of a request target: what comes before [?] or [#]. *)
Fixpoint urlparse_path (s : string) : string :=
  match s with
  | EmptyString => EmptyString
  | String c r =>
      if Ascii.eqb c "?" || Ascii.eqb c "#" then EmptyString
      else String c (urlparse_path r)
  end.

Fixpoint endswith_go (suffix s : string) (n : nat) : bool :=
  match n with
  | O => String.eqb suffix s
  | S n' => match s with
            | String _ r => endswith_go suffix r n'
            | EmptyString => false
            end
  end.

Definition endswith (suffix s : string) : bool :=
  endswith_go suffix s (String.length s - String.length suffix).

Definition guess_type (name : string) : option string :=
  if endswith ".html" name then Some "text/html"
  else if endswith ".jpg" name then Some "image/jpeg"
  else if endswith ".png" name then Some "image/png"
  else if endswith ".py" name then Some "text/x-python"
  else None.

Fixpoint zeros (n : nat) : string :=
  match n with
  | O => EmptyString
  | S n' => String "0" (zeros n')
  end.

(** The [n]-th identifier: 32 digits. *)
Definition uuid4_hex (n : nat) : string :=
  let d := str_of_nat n in
  zeros (32 - String.length d) +:+ d.

(** *** Two external programs *)

(** A tool that writes its input, unchanged, where it is told to. *)
Definition copy_tool (cmd : list string) (cwd : string) (fs : gmap (list string) node)
  : result completed_process exn * gmap (list string) node :=
  match cmd with
  | [_; _; input; _; output; _; _; _; _; _; _] =>
      match fs_read fs input with
      | Ok data =>
          match fs_write fs output data with
          | Ok fs' => (Ok (Completed 0 "" ""), fs')
          | Err _ => (Ok (Completed 255 "" "encode image failed"), fs)
          end
      | Err _ => (Ok (Completed 255 "" "decode image failed"), fs)
      end
  | _ => (Ok (Completed 255 "Usage: realesrgan-ncnn-vulkan -i infile -o outfile" ""), fs)
  end.

(** A tool that gives up at once. *)
Definition failing_tool (cmd : list string) (cwd : string) (fs : gmap (list string) node)
  : result completed_process exn * gmap (list string) node :=
  (Ok (Completed 255 "" "vkCreateInstance failed"), fs).

(** A system that removes every file it is asked to. *)
Definition willing (name : string) (fs : gmap (list string) node) : option exn :=
  None.



Definition platform
    (tool : list string -> string -> gmap (list string) node ->
            result completed_process exn * gmap (list string) node) : Platform :=
  Build_Platform json_loads json_dumps b64decode int_of_str urlparse_path
    guess_type uuid4_hex tool willing.

(** The server directory: [/srv], holding the page, the script, the
    executable and an empty [results] directory. *)
Definition base : Path := Path_of "/srv".

Definition disk : gmap (list string) node :=
  <[ ["srv"; "results"] := Dir ]>
  (<[ ["srv"; "realesrgan-ncnn-vulkan.exe"] := File [x4d; x5a] ]>
  (<[ ["srv"; "web_server.py"] := File [x23; x21] ]>
  (<[ ["srv"; "web_interface.html"] := File [x3c; x68; x31; x3e] ]>
  (<[ ["srv"] := Dir ]> ∅)))).

(** The same directory before the executable is installed and before
    [results] exists. *)
Definition bare_disk : gmap (list string) node :=
  <[ ["srv"; "web_server.py"] := File [x23; x21] ]>
  (<[ ["srv"] := Dir ]> ∅).

Definition post (body : string) : request :=
  Request "/enhance"
    [("Content-Type", "application/json");
     ("Content-Length", str_of_nat (String.length body))]
    (list_byte_of_string body).

(** The document with the single member [image]. *)
Definition image_body (image : string) : string :=
  "{" +:+ quoted "image" +:+ ": " +:+ quoted image +:+ "}".

(** The same document cut off inside its text. *)
Definition truncated_body : string :=
  "{" +:+ quoted "image" +:+ ": " +:+ String dquote "QUJD".

Definition plain : Platform := platform copy_tool.
Definition broken : Platform := platform failing_tool.



(** A tool that exits with code 0 and writes nothing. *)
Definition silent_tool (cmd : list string) (cwd : string) (fs : gmap (list string) node)
  : result completed_process exn * gmap (list string) node :=
  (Ok (Completed 0 "" ""), fs).

Definition silent : Platform := platform silent_tool.

End Sample.

(** ** Reading a run *)

Definition outcome {A} (m : M A) (st : state) : result A exn := (m st).1.1.
Definition state_after {A} (m : M A) (st : state) : state := (m st).1.2.
Definition calls {A} (m : M A) (st : state) : list event := (m st).2.

(** The disk after [try: p.unlink()  except: pass]. *)
Definition fs_after_unlink `{Platform} (fs : gmap (list string) node) (name : string)
  : gmap (list string) node :=
  match fs_unlink (unlink_refusal name fs) fs name with
  | Ok fs' => fs'
  | Err _ => fs
  end.

(** *** The specification's reading of "valid base64" *)




(** The headers [send_json_response] puts before a body. *)
Definition json_headers `{Platform} (data : list (string * pyvalue)) : list (string * string) :=
  [("Content-Type", "application/json; charset=utf-8");
   ("Content-Length", str_of_nat (length (encode_utf8 (json_dumps data))));
   ("Access-Control-Allow-Origin", "*");
   ("Access-Control-Allow-Methods", "GET, POST, OPTIONS");
   ("Access-Control-Allow-Headers", "Content-Type")].

(** The JSON answer with one member [error]. *)
Definition error_response `{Platform} (code : Z) (message : string) : response :=
  Response code (json_headers [("error", PyStr message)])
    (BodyJson [("error", PyStr message)]).

(** The JSON answer of a successful run. *)
Definition success_response `{Platform} (output_filename : string) : response :=
  let data :=
    [("success", PyBool true);
     ("enhanced_image_url", PyStr ("/results/" +:+ output_filename));
     ("message", PyStr MSG_SUCCESS)] in
  Response 200 (json_headers data) (BodyJson data).

(** The command line of the external program. *)
Definition realesrgan_cmd (base_path : Path) (input_path output_path : string) : list string :=
  [Path_str (truediv base_path EXE_NAME);
   "-i"; input_path;
   "-o"; output_path;
   "-n"; "realesrgan-x4plus";
   "-t"; "256";
   "-j"; "1:1:1"].

(** The two names a request works under, from the identifiers drawn. *)
Definition input_name `{Platform} (base_path : Path) (n : nat) : string :=
  Path_str (truediv (truediv base_path "temp") ("input_" +:+ uuid4_hex n +:+ ".jpg")).

Definition output_filename_of `{Platform} (n : nat) : string :=
  "output_" +:+ uuid4_hex (S n) +:+ ".jpg".

Definition output_name `{Platform} (base_path : Path) (n : nat) : string :=
  Path_str (truediv (truediv base_path "results") (output_filename_of n)).

(** *** The specification's reading of the prefix rule *)

(** The text before the first [c], all of it when there is none. *)
Fixpoint before_char (c : ascii) (s : string) : string :=
  match s with
  | EmptyString => EmptyString
  | String a rest => if Ascii.eqb a c then EmptyString else String a (before_char c rest)
  end.

(** The text after the first [c], later occurrences included. *)
Fixpoint after_char (c : ascii) (s : string) : string :=
  match s with
  | EmptyString => EmptyString
  | String a rest => if Ascii.eqb a c then rest else after_char c rest
  end.

(** "Only the substring after the first comma is treated as base64
    payload", as the specification words it. *)
Definition spec_payload (image : string) : string :=
  if contains_char comma image then after_char comma image else image.

(** One list of names lies under another. *)
Fixpoint under (dir c : list string) : bool :=
  match dir, c with
  | [], _ => true
  | d :: dir', x :: c' => String.eqb d x && under dir' c'
  | _ :: _, [] => false
  end.

(** *** Reading the calls of a run *)

(** The calls that change the disk or start a process. *)
Definition is_mutation (ev : event) : bool :=
  match ev with
  | E_mkdir _ | E_makedirs _ | E_write _ _ | E_unlink _ | E_run _ _ => true
  | _ => false
  end.

Definition is_print (ev : event) : bool :=
  match ev with E_print _ => true | _ => false end.

(** What the enhance handler may call, for a request that draws its two
    identifiers from [n] on: the temp directory, its own temp input file,
    the directory of its output file, the lookups of the executable and of
    the output file, and the external program on those two names.  It opens
    no file for reading. *)
Definition enhance_call_ok `{Platform} (base_path : Path) (n : nat) (ev : event) : Prop :=
  match ev with
  | E_mkdir name => name = Path_str (truediv base_path "temp")
  | E_makedirs name => name = os_path_dirname (output_name base_path n)
  | E_write name _ => name = input_name base_path n
  | E_unlink name => name = input_name base_path n
  | E_read _ => False
  | E_exists name =>
      name = Path_str (truediv base_path EXE_NAME) \/ name = output_name base_path n
  | E_run cmd cwd =>
      cmd = realesrgan_cmd base_path (input_name base_path n) (output_name base_path n)
      /\ cwd = Path_str base_path
  | E_print _ => True
  | E_respond _ => True
  end.

(** The errors the disk raises. *)
Definition is_disk_error (e : exn) : Prop :=
  e = ENOENT \/ e = ENOTDIR \/ e = EEXIST \/ e = EISDIR.

(** The name [serve_file] opens: a relative name is taken from the base
    directory. *)
Definition served_name (base_path : Path) (file_path : string) : string :=
  if negb (os_path_isabs file_path)
  then Path_str (truediv base_path file_path)
  else file_path.

(** The answer that carries a file. *)
Definition file_response `{Platform} (name : string) (content : bytes) : response :=
  Response 200
    [("Content-Type",
      match guess_type name with
      | Some t => t
      | None => "application/octet-stream"
      end);
     ("Content-Length", str_of_nat (length content));
     ("Access-Control-Allow-Origin", "*")]
    (BodyBytes content).

(** The error page of [send_error]. *)
Definition error_page (code : Z) (message : string) : response :=
  Response code [] (BodyError message).

(** * Properties *)

(** ** Text *)

Lemma str_split_cons (c : ascii) (s : string) :
  str_split c s =
    before_char c s ::
    (if contains_char c s then str_split c (after_char c s) else []).
Proof.
  induction s as [|a rest IH]; simpl; [reflexivity|].
  destruct (Ascii.eqb a c); [reflexivity|].
  rewrite IH. reflexivity.
Qed.

Lemma before_char_absent (c : ascii) (s : string) :
  contains_char c s = false -> before_char c s = s.
Proof.
  induction s as [|a rest IH]; simpl; [reflexivity|].
  destruct (Ascii.eqb a c); [discriminate|].
  intros Hrest. rewrite IH; [reflexivity | exact Hrest].
Qed.

Lemma contains_char_app (c : ascii) (s t : string) :
  contains_char c (s +:+ t) = contains_char c s || contains_char c t.
Proof.
  induction s as [|a rest IH]; simpl; [reflexivity|].
  destruct (Ascii.eqb a c); [reflexivity | exact IH].
Qed.

Lemma after_char_app (c : ascii) (s t : string) :
  contains_char c s = false ->
  after_char c (s +:+ String c t) = t.
Proof.
  induction s as [|a rest IH]; simpl.
  - rewrite Ascii.eqb_refl. reflexivity.
  - destruct (Ascii.eqb a c); [discriminate | exact IH].
Qed.

(** What lines 91-92 hand to the decoder, for a text: the piece between the
    first comma and the second. *)
Lemma strip_prefix_str (s : string) :
  strip_prefix (PyStr s) =
    Ok (PyStr (if contains_char comma s
               then before_char comma (after_char comma s)
               else s)).
Proof.
  unfold strip_prefix, py_contains_comma, py_split_comma_1, result_bind.
  destruct (contains_char comma s) eqn:Hc; [|reflexivity].
  rewrite str_split_cons, Hc.
  rewrite (str_split_cons comma (after_char comma s)). reflexivity.
Qed.

(** With a single comma the code and the specification agree. *)
Lemma strip_prefix_single_comma (s : string) :
  contains_char comma (after_char comma s) = false ->
  strip_prefix (PyStr s) = Ok (PyStr (spec_payload s)).
Proof.
  intros Hone. rewrite strip_prefix_str. unfold spec_payload.
  destruct (contains_char comma s); [|reflexivity].
  rewrite before_char_absent; [reflexivity | exact Hone].
Qed.

(** ** The data-URI prefix *)

(** C1: the text after the first comma -- the whole remainder, later commas
    included -- should be what the decoder gets.  On the image
    [data:image/png;base64,QUJD,REVG] the handler hands over [QUJD] only:
    [split(',')[1]] stops at the second comma, where the specification's
    payload is [QUJD,REVG]. *)
Theorem C1_payload_cut_at_second_comma :
  strip_prefix (PyStr "data:image/png;base64,QUJD,REVG") = Ok (PyStr "QUJD") /\
  spec_payload "data:image/png;base64,QUJD,REVG" = "QUJD,REVG".
Proof. split; reflexivity. Qed.

(** C2: for a comma-free [B], the decode step gives the same result on
    [data:image/png;base64,B] as on [B] itself, whatever the decoder. *)
Theorem C2_data_uri_same_bytes `{Platform} (B : string) :
  contains_char comma B = false ->
  decode_step (PyStr ("data:image/png;base64," +:+ B)) = decode_step (PyStr B).
Proof.
  intros HB. unfold decode_step.
  rewrite !strip_prefix_str.
  change ("data:image/png;base64," +:+ B)
    with ("data:image/png;base64" +:+ String comma B).
  rewrite contains_char_app.
  rewrite (after_char_app comma "data:image/png;base64" B) by reflexivity.
  simpl contains_char.
  rewrite HB, before_char_absent by exact HB. reflexivity.
Qed.

Lemma C2_data_uri_same_bytes_witness :
  contains_char comma "QUJD" = false /\
  @decode_step (Sample.platform Sample.copy_tool) (PyStr ("data:image/png;base64," +:+ "QUJD"))
    = Ok [x41; x42; x43] /\
  @decode_step (Sample.platform Sample.copy_tool) (PyStr "QUJD") = Ok [x41; x42; x43].
Proof.
  split; [reflexivity|].
  split; [|reflexivity].
  rewrite (@C2_data_uri_same_bytes (Sample.platform Sample.copy_tool) "QUJD" eq_refl).
  reflexivity.
Defined.

(** ** Requests that are turned away *)

(** Unfold the handler down to the library calls. *)
Ltac open_handler :=
  unfold handle_enhance_request, try_except, bind, lift, send_json_response,
    error_response, json_headers, print, emit.




(** The general form of that answer: any body the codec rejects, on any
    platform. *)
Lemma not_utf8_500 `{Platform} (base_path : Path) (req : request) (st : state)
    (n : Z) :
  py_int (headers_get (req_headers req) "Content-Length") = Ok n ->
  decode_utf8 (rfile_read (rfile req) n) = Err UTF8_ERROR ->
  handle_enhance_request base_path req st =
    (Ok tt, st,
     [E_print ("Error in enhance request: " +:+ exn_str UTF8_ERROR);
      E_respond (error_response 500 (MSG_SERVER_PREFIX +:+ exn_str UTF8_ERROR))]).
Proof.
  intros Hlen Hutf. open_handler. rewrite Hlen, Hutf. reflexivity.
Qed.






(** C10: without a [Content-Length] header, [int(None)] raises before the
    body is read; the last handler answers with status 500 and the text of
    that exception. *)
Theorem C10_no_content_length_500 `{Platform} (base_path : Path) (req : request)
    (st : state) :
  headers_get (req_headers req) "Content-Length" = None ->
  handle_enhance_request base_path req st =
    (Ok tt, st,
     [E_print ("Error in enhance request: " +:+ exn_str INT_NONE_ERROR);
      E_respond
        (error_response 500 (MSG_SERVER_PREFIX +:+ exn_str INT_NONE_ERROR))]).
Proof.
  intros Hnone. open_handler. rewrite Hnone. reflexivity.
Qed.

Lemma C10_no_content_length_500_witness :
  map status
    (responses
       (calls (@handle_enhance_request Sample.plain Sample.base
                 (Request "/enhance" [("Content-Type", "application/json")]
                    (list_byte_of_string "{}")))
              (State Sample.disk 0))) = [500].
Proof.
  unfold calls.
  rewrite (@C10_no_content_length_500 Sample.plain Sample.base
             (Request "/enhance" [("Content-Type", "application/json")]
                (list_byte_of_string "{}"))
             (State Sample.disk 0) eq_refl).
  reflexivity.
Defined.

(** ** The process invoker *)

Ltac open_invoker :=
  unfold run_realesrgan, try_except, bind, os_makedirs, fs_update, exists_,
    run_process, print, emit, ret.

(** The invoker always returns: whatever is raised inside is caught. *)
Lemma run_realesrgan_returns `{Platform} (base_path : Path)
    (input_path output_path : string) (st : state) :
  exists success error_msg,
    outcome (run_realesrgan base_path input_path output_path) st =
      Ok (success, error_msg).
Proof.
  unfold outcome. open_invoker.
  destruct (fs_makedirs (st_fs st) (os_path_dirname output_path)) as [fs1|e];
    cbn -[fs_exists]; [|eauto].
  destruct (fs_exists fs1 _); cbn; [|eauto].
  destruct (subprocess_run _ _ fs1) as [[res|e] fs2]; cbn; [|eauto].
  destruct (returncode res =? 0); cbn; eauto.
Qed.


(** C7, as the invoker has it: the output directory is ensured first,
    whether the executable is there or not.  When that fails, the failure
    carries the exception text and no process is started.  When it succeeds
    and the executable is absent, the failure carries the "not found"
    message and the calls are the directory and the lookup only.  When the
    executable is present, the program is run once, with the fixed model
    name, tile size and job descriptor. *)
Theorem C7_directory_first_then_executable `{Platform} (base_path : Path)
    (input_path output_path : string) (st : state) :
  let dir := os_path_dirname output_path in
  let exe := Path_str (truediv base_path EXE_NAME) in
  let run := run_realesrgan base_path input_path output_path in
  match fs_makedirs (st_fs st) dir with
  | Err e =>
      outcome run st = Ok (false, Some (exn_str e)) /\
      List.filter is_run (calls run st) = []
  | Ok fs1 =>
      if fs_exists fs1 exe then
        exists tail,
          calls run st =
            [E_makedirs dir; E_exists exe;
             E_print ("Running command: " +:+
                      str_join " " (realesrgan_cmd base_path input_path output_path));
             E_run (realesrgan_cmd base_path input_path output_path)
                   (Path_str base_path)] ++ tail /\
          List.filter is_run tail = []
      else
        run st =
          (Ok (false, Some MSG_EXE_MISSING), State fs1 (st_uuid st),
           [E_makedirs dir; E_exists exe])
  end.
Proof.
  intros dir exe run. subst dir exe run. unfold outcome, calls. open_invoker.
  destruct (fs_makedirs (st_fs st) (os_path_dirname output_path)) as [fs1|e];
    cbn -[fs_exists]; [|split; reflexivity].
  destruct (fs_exists fs1 _); cbn; [|reflexivity].
  destruct (subprocess_run _ _ fs1) as [[res|e] fs2]; cbn.
  - destruct (returncode res =? 0); cbn; eexists; split; reflexivity.
  - eexists; split; reflexivity.
Qed.

(** With neither executable nor [results] directory on the disk, the
    invoker still creates the directory before it finds the executable
    missing. *)
Lemma C7_directory_made_without_executable :
  fs_exists Sample.bare_disk (Path_str (truediv Sample.base EXE_NAME)) = false /\
  Sample.bare_disk !! ["srv"; "results"] = None /\
  calls (@run_realesrgan Sample.plain Sample.base
           "/srv/temp/in.jpg" "/srv/results/out.jpg")
        (State Sample.bare_disk 0) =
    [E_makedirs "/srv/results"; E_exists "/srv/realesrgan-ncnn-vulkan.exe"] /\
  st_fs (state_after (@run_realesrgan Sample.plain Sample.base
                        "/srv/temp/in.jpg" "/srv/results/out.jpg")
                     (State Sample.bare_disk 0)) !! ["srv"; "results"] = Some Dir.
Proof. repeat split; vm_compute; reflexivity. Qed.

(** ** The disk after the cleanup *)






Lemma responses_app (evs1 evs2 : list event) :
  responses (evs1 ++ evs2) = responses evs1 ++ responses evs2.
Proof.
  induction evs1 as [|ev rest IH]; simpl; [reflexivity|].
  destruct ev; simpl; rewrite ?IH; reflexivity.
Qed.

(** The invoker answers nothing itself. *)
Lemma run_realesrgan_no_response `{Platform} (base_path : Path)
    (input_path output_path : string) (st : state) :
  responses (calls (run_realesrgan base_path input_path output_path) st) = [].
Proof.
  unfold calls. open_invoker.
  destruct (fs_makedirs (st_fs st) (os_path_dirname output_path)) as [fs1|e];
    cbn -[fs_exists]; [|reflexivity].
  destruct (fs_exists fs1 _); cbn; [|reflexivity].
  destruct (subprocess_run _ _ fs1) as [[res|e] fs2]; cbn; [|reflexivity].
  destruct (returncode res =? 0); reflexivity.
Qed.

(** ** Requests that reach the external program *)

(** The whole run of a request that gets as far as the invoker, in terms of
    what the invoker does. *)
Lemma handle_reaches_invocation `{Platform} (base_path : Path) (req : request)
    (st : state) (n : Z) (text : string) (data image_data : pyvalue)
    (image_bytes : bytes) (fs1 fs2 : gmap (list string) node)
    (success : bool) (error_msg : option string) :
  py_int (headers_get (req_headers req) "Content-Length") = Ok n ->
  decode_utf8 (rfile_read (rfile req) n) = Ok text ->
  json_loads text = Ok data ->
  py_get data "image" = Ok image_data ->
  truthy image_data = true ->
  decode_step image_data = Ok image_bytes ->
  fs_mkdir (st_fs st) (Path_str (truediv base_path "temp")) = Ok fs1 ->
  fs_write fs1 (input_name base_path (st_uuid st)) image_bytes = Ok fs2 ->
  let inp := input_name base_path (st_uuid st) in
  let out := output_name base_path (st_uuid st) in
  let run := run_realesrgan base_path inp out in
  let st2 := State fs2 (S (S (st_uuid st))) in
  outcome run st2 = Ok (success, error_msg) ->
  let st3 := state_after run st2 in
  let fs4 := fs_after_unlink (st_fs st3) inp in
  handle_enhance_request base_path req st =
    (Ok tt, State fs4 (st_uuid st3),
     [E_mkdir (Path_str (truediv base_path "temp")); E_write inp image_bytes]
     ++ calls run st2
     ++ [E_unlink inp]
     ++ (if success then [E_exists out] else [])
     ++ [E_respond
           (if success && fs_exists fs4 out
            then success_response (output_filename_of (st_uuid st))
            else error_response 500 (MSG_FAIL_PREFIX +:+ format_opt error_msg))]).
Proof.
  intros Hlen Hutf Hjson Hget Htrue Hdec Hmkdir Hwrite inp out run st2 Hrun st3 fs4.
  subst inp out run st2 st3 fs4.
  unfold input_name, output_name, output_filename_of, outcome, state_after,
    calls, fs_after_unlink, success_response in *.
  open_handler.
  rewrite Hlen, Hutf, Hjson, Hget, Htrue. cbn [negb]. cbn beta iota.
  rewrite Hdec. cbn beta iota.
  unfold mkdir, fs_update. rewrite Hmkdir. cbn beta iota.
  unfold uuid4, write_file, fs_update. cbn [st_fs st_uuid].
  rewrite Hwrite. cbn beta iota.
  destruct (run_realesrgan _ _ _ _) as [[r [fs3 u3]] evs3]. cbn [fst snd] in *.
  subst r. cbn beta iota.
  unfold unlink, fs_update, exists_, ret.
  cbn [st_fs st_uuid].
  destruct (fs_unlink _ fs3 _) as [fs'|e]; destruct success;
    cbn -[Path_str truediv fs_exists String.append].
  all: try (destruct (fs_exists _ _)); reflexivity.
Qed.






(** ** Files under [/results/] *)

Lemma startswith_split (p s : string) :
  startswith p s = true -> exists rest, s = p +:+ rest.
Proof.
  revert s. induction p as [|a p' IH]; intros s; simpl.
  - intros _. exists s. reflexivity.
  - destruct s as [|b s']; [discriminate|].
    destruct (Ascii.eqb_spec a b) as [->|]; [|discriminate].
    intros Hrest. destruct (IH s' Hrest) as [rest ->].
    exists rest. reflexivity.
Qed.

(** The name of a path anchored at the root is absolute. *)
Lemma Path_str_absolute (p : Path) :
  absolute p = true -> os_path_isabs (Path_str p) = true.
Proof.
  intros Habs. unfold Path_str. rewrite Habs. reflexivity.
Qed.

Lemma truediv_absolute (p : Path) (s : string) :
  absolute p = true -> absolute (truediv p s) = true.
Proof.
  intros Habs. unfold truediv.
  destruct (absolute (Path_of s)) eqn:Hq; [exact Hq | exact Habs].
Qed.

(** The path built for a request under [/results/]: the parts of the base
    directory, then the parts of the request path.  Empty parts and ["."]
    are dropped; every [".."] stays. *)
Lemma results_file_path_parts (base_path : Path) (path : string) :
  startswith "/results/" path = true ->
  results_file_path base_path path =
    mkPath (absolute base_path)
      (parts base_path ++ List.filter keep_part (str_split slash (drop_first path))).
Proof.
  intros Hpre. destruct (startswith_split _ _ Hpre) as [rest ->].
  reflexivity.
Qed.

Lemma fs_read_exists (fs : gmap (list string) node) (name : string) (content : bytes) :
  fs_read fs name = Ok content -> fs_exists fs name = true.
Proof.
  unfold fs_read, fs_exists.
  destruct (resolve fs name) as [c|e]; [|discriminate].
  destruct (node_at fs c) as [[d|]|]; [reflexivity | discriminate | discriminate].
Qed.

(** C9: for a GET whose path starts with [/results/], the name looked up
    and opened is the base directory joined with the path minus its leading
    slash, [".."] parts included, and nothing checks that it stays under
    [results]: an existing file under that name is sent back, a missing one
    gives 404.  So there is a request -- [/results/../web_server.py] on the
    sample disk -- that is answered with a file outside [results]. *)
Theorem C9_results_path_not_contained :
  (forall (P : Platform) (base_path : Path) (req : request) (st : state),
     absolute base_path = true ->
     startswith "/results/" (urlparse_path (req_path req)) = true ->
     let path := urlparse_path (req_path req) in
     let name := Path_str (results_file_path base_path path) in
     results_file_path base_path path =
       mkPath (absolute base_path)
         (parts base_path ++
          List.filter keep_part (str_split slash (drop_first path))) /\
     (forall content,
        fs_read (st_fs st) name = Ok content ->
        do_GET base_path req st =
          (Ok tt, st,
           [E_exists name; E_read name;
            E_respond
              (Response 200
                 [("Content-Type",
                   match guess_type name with
                   | Some t => t
                   | None => "application/octet-stream"
                   end);
                  ("Content-Length", str_of_nat (length content));
                  ("Access-Control-Allow-Origin", "*")]
                 (BodyBytes content))])) /\
     (fs_exists (st_fs st) name = false ->
      do_GET base_path req st =
        (Ok tt, st,
         [E_exists name;
          E_respond (Response 404 [] (BodyError "File not found"))]))) /\
  (exists (req : request) (content : bytes) (c : list string),
     In ".." (str_split slash (req_path req)) /\
     startswith "/results/" (@urlparse_path Sample.plain (req_path req)) = true /\
     map payload
       (responses (calls (@do_GET Sample.plain Sample.base req)
                         (State Sample.disk 0))) = [BodyBytes content] /\
     resolve Sample.disk
       (Path_str (results_file_path Sample.base
                    (@urlparse_path Sample.plain (req_path req)))) = Ok c /\
     Sample.disk !! c = Some (File content) /\
     under ["srv"; "results"] c = false).
Proof.
  split.
  - intros P base_path req st Habs Hpre path name. subst path name.
    split; [apply results_file_path_parts; exact Hpre|].
    assert (Hroute : String.eqb (urlparse_path (req_path req)) "/"
                     || String.eqb (urlparse_path (req_path req)) "/index.html"
                     = false).
    { destruct (startswith_split _ _ Hpre) as [rest ->]. reflexivity. }
    assert (Hisabs : os_path_isabs
              (Path_str (results_file_path base_path
                           (urlparse_path (req_path req)))) = true).
    { apply Path_str_absolute, truediv_absolute, Habs. }
    split.
    + intros content Hread.
      unfold do_GET. rewrite Hroute, Hpre.
      unfold serve_file, try_except, read_file, emit, exists_, bind.
      rewrite (fs_read_exists _ _ _ Hread), Hisabs.
      cbn [negb st_fs]. rewrite Hread. reflexivity.
    + intros Hmissing.
      unfold do_GET. rewrite Hroute, Hpre.
      unfold bind, exists_, send_error, emit.
      rewrite Hmissing. reflexivity.
  - exists (Request "/results/../web_server.py" [] []), [x23; x21],
      ["srv"; "web_server.py"].
    repeat split; try (vm_compute; reflexivity).
    simpl. tauto.
Qed.

Lemma C9_results_path_not_contained_witness :
  @do_GET Sample.plain Sample.base
    (Request "/results/../web_server.py" [] []) (State Sample.disk 0) =
  (Ok tt, State Sample.disk 0,
   [E_exists "/srv/results/../web_server.py";
    E_read "/srv/results/../web_server.py";
    E_respond
      (Response 200
         [("Content-Type", "text/x-python");
          ("Content-Length", "2");
          ("Access-Control-Allow-Origin", "*")]
         (BodyBytes [x23; x21]))]).
Proof.
  exact (proj1 (proj2 (proj1 C9_results_path_not_contained Sample.plain Sample.base
           (Request "/results/../web_server.py" [] []) (State Sample.disk 0)
           eq_refl eq_refl)) [x23; x21] eq_refl).
Defined.

(** * Further properties of the handler *)

(** ** The payload handed to the decoder *)

Lemma before_char_clean (c : ascii) (s : string) :
  contains_char c (before_char c s) = false.
Proof.
  induction s as [|a rest IH]; simpl; [reflexivity|].
  destruct (Ascii.eqb a c) eqn:Hac; [reflexivity|].
  simpl. rewrite Hac. exact IH.
Qed.

Lemma stripped_payload_clean (s : string) :
  contains_char comma
    (if contains_char comma s
     then before_char comma (after_char comma s)
     else s) = false.
Proof.
  destruct (contains_char comma s) eqn:Hc; [apply before_char_clean | exact Hc].
Qed.


(** Stripping twice is stripping once. *)
Theorem strip_prefix_idempotent (s : string) :
  result_bind (strip_prefix (PyStr s)) strip_prefix = strip_prefix (PyStr s).
Proof.
  rewrite strip_prefix_str. simpl.
  rewrite strip_prefix_str, stripped_payload_clean. reflexivity.
Qed.


(** ** Every run of the enhance handler *)

Lemma walk_error (fs : gmap (list string) node) (comps cur : list string) (e : exn) :
  walk fs cur comps = Err e -> is_disk_error e.
Proof.
  revert cur. induction comps as [|x rest IH]; intros cur; simpl; [discriminate|].
  destruct (node_at fs cur) as [[d|]|].
  - intros [= <-]. right; left. reflexivity.
  - destruct (String.eqb x "" || String.eqb x "."); [apply IH|].
    destruct (String.eqb x ".."); apply IH.
  - intros [= <-]. left. reflexivity.
Qed.

Lemma fs_mkdir_error (fs : gmap (list string) node) (name : string) (e : exn) :
  fs_mkdir fs name = Err e -> is_disk_error e.
Proof.
  unfold fs_mkdir, resolve.
  destruct (walk fs [] _) as [c|e'] eqn:Hw.
  - destruct (node_at fs c) as [[d|]|]; try discriminate.
    intros [= <-]. right; right; left. reflexivity.
  - intros [= <-]. exact (walk_error _ _ _ _ Hw).
Qed.

Lemma fs_write_error (fs : gmap (list string) node) (name : string)
    (data : bytes) (e : exn) :
  fs_write fs name data = Err e -> is_disk_error e.
Proof.
  unfold fs_write, resolve.
  destruct (walk fs [] _) as [c|e'] eqn:Hw.
  - destruct (node_at fs c) as [[d|]|]; try discriminate.
    intros [= <-]. right; right; right. reflexivity.
  - intros [= <-]. exact (walk_error _ _ _ _ Hw).
Qed.

Lemma disk_error_not_json (e : exn) :
  is_disk_error e -> is_JSONDecodeError e = false.
Proof. intros [-> | [-> | [-> | ->]]]; reflexivity. Qed.

(** The answer of the two outer [except] clauses. *)
Ltac early_exit e :=
  destruct (is_JSONDecodeError e);
  [ exists (error_response 400 MSG_BAD_JSON), (@nil string)
  | eexists; exists ["Error in enhance request: " +:+ exn_str e] ];
  (split; [reflexivity | first [left; reflexivity | right; reflexivity]]).

(** The four ways a request can go: turned away before the disk is
    touched; stopped because the temp directory cannot be made; stopped
    because the temp file cannot be written; or handed to the invoker. *)
Lemma handle_cases `{Platform} (base_path : Path) (req : request) (st : state) :
  (exists (r : response) (lines : list string),
     handle_enhance_request base_path req st =
       (Ok tt, st, map E_print lines ++ [E_respond r]) /\
     (status r = 400 \/ status r = 500))
  \/
  (exists e,
     fs_mkdir (st_fs st) (Path_str (truediv base_path "temp")) = Err e /\
     handle_enhance_request base_path req st =
       (Ok tt, st,
        [E_mkdir (Path_str (truediv base_path "temp"));
         E_print ("Error in enhance request: " +:+ exn_str e);
         E_respond (error_response 500 (MSG_SERVER_PREFIX +:+ exn_str e))]))
  \/
  (exists fs1 image_bytes e,
     fs_mkdir (st_fs st) (Path_str (truediv base_path "temp")) = Ok fs1 /\
     fs_write fs1 (input_name base_path (st_uuid st)) image_bytes = Err e /\
     handle_enhance_request base_path req st =
       (Ok tt, State fs1 (S (S (st_uuid st))),
        [E_mkdir (Path_str (truediv base_path "temp"));
         E_write (input_name base_path (st_uuid st)) image_bytes;
         E_print ("Error in enhance request: " +:+ exn_str e);
         E_respond (error_response 500 (MSG_SERVER_PREFIX +:+ exn_str e))]))
  \/
  (exists n text data image_data image_bytes fs1 fs2,
     py_int (headers_get (req_headers req) "Content-Length") = Ok n /\
     decode_utf8 (rfile_read (rfile req) n) = Ok text /\
     json_loads text = Ok data /\
     py_get data "image" = Ok image_data /\
     truthy image_data = true /\
     decode_step image_data = Ok image_bytes /\
     fs_mkdir (st_fs st) (Path_str (truediv base_path "temp")) = Ok fs1 /\
     fs_write fs1 (input_name base_path (st_uuid st)) image_bytes = Ok fs2).
Proof.
  destruct (py_int (headers_get (req_headers req) "Content-Length")) as [n|e] eqn:Hlen.
  2: { left. open_handler. rewrite Hlen. cbn beta iota. early_exit e. }
  destruct (decode_utf8 (rfile_read (rfile req) n)) as [text|e] eqn:Hutf.
  2: { left. open_handler. rewrite Hlen, Hutf. cbn beta iota. early_exit e. }
  destruct (json_loads text) as [data|e] eqn:Hjson.
  2: { left. open_handler. rewrite Hlen, Hutf, Hjson. cbn beta iota. early_exit e. }
  destruct (py_get data "image") as [image_data|e] eqn:Hget.
  2: { left. open_handler. rewrite Hlen, Hutf, Hjson, Hget. cbn beta iota.
       early_exit e. }
  destruct (truthy image_data) eqn:Htrue.
  2: { left. exists (error_response 400 MSG_NO_IMAGE), [].
       split; [|left; reflexivity]. open_handler.
       rewrite Hlen, Hutf, Hjson, Hget, Htrue. reflexivity. }
  destruct (decode_step image_data) as [image_bytes|e] eqn:Hdec.
  2: { left. exists (error_response 400 (MSG_DECODE_PREFIX +:+ exn_str e)), [].
       split; [|left; reflexivity]. open_handler.
       rewrite Hlen, Hutf, Hjson, Hget, Htrue. cbn [negb]. cbn beta iota.
       rewrite Hdec. reflexivity. }
  destruct (fs_mkdir (st_fs st) (Path_str (truediv base_path "temp")))
    as [fs1|e] eqn:Hmk.
  2: { right; left. exists e. split; [reflexivity|]. open_handler.
       rewrite Hlen, Hutf, Hjson, Hget, Htrue. cbn [negb]. cbn beta iota.
       rewrite Hdec. cbn beta iota. unfold mkdir, fs_update. rewrite Hmk.
       cbn beta iota.
       rewrite (disk_error_not_json e (fs_mkdir_error _ _ _ Hmk)). reflexivity. }
  destruct (fs_write fs1 (input_name base_path (st_uuid st)) image_bytes)
    as [fs2|e] eqn:Hwr.
  2: { right; right; left. exists fs1, image_bytes, e.
       split; [reflexivity|]. split; [exact Hwr|].
       unfold input_name in *. open_handler.
       rewrite Hlen, Hutf, Hjson, Hget, Htrue. cbn [negb]. cbn beta iota.
       rewrite Hdec. cbn beta iota. unfold mkdir, fs_update. rewrite Hmk.
       cbn beta iota. unfold uuid4, write_file, fs_update. cbn [st_fs st_uuid].
       rewrite Hwr. cbn beta iota.
       rewrite (disk_error_not_json e (fs_write_error _ _ _ _ Hwr)). reflexivity. }
  right; right; right.
  exists n, text, data, image_data, image_bytes, fs1, fs2.
  repeat split; assumption.
Qed.

(** ** What the invoker reports *)

Lemma run_success_inversion `{Platform} (base_path : Path)
    (input_path output_path : string) (st : state) (error_msg : option string) :
  outcome (run_realesrgan base_path input_path output_path) st
    = Ok (true, error_msg) ->
  error_msg = None /\
  List.filter is_run (calls (run_realesrgan base_path input_path output_path) st)
    = [E_run (realesrgan_cmd base_path input_path output_path) (Path_str base_path)] /\
  exists fs1 res fs2,
    fs_makedirs (st_fs st) (os_path_dirname output_path) = Ok fs1 /\
    subprocess_run (realesrgan_cmd base_path input_path output_path)
      (Path_str base_path) fs1 = (Ok res, fs2) /\
    returncode res = 0 /\
    st_fs (state_after (run_realesrgan base_path input_path output_path) st) = fs2.
Proof.
  unfold outcome, calls, state_after, realesrgan_cmd. open_invoker.
  destruct (fs_makedirs (st_fs st) (os_path_dirname output_path)) as [fs1|e];
    cbn -[fs_exists]; [|discriminate].
  destruct (fs_exists fs1 _); cbn; [|discriminate].
  destruct (subprocess_run _ _ fs1) as [[res|e] fs2] eqn:Hsub; cbn; [|discriminate].
  destruct (returncode res =? 0) eqn:Hrc; cbn; [|discriminate].
  intros [= <-]. split; [reflexivity|]. split; [reflexivity|].
  exists fs1, res, fs2.
  split; [reflexivity|]. split; [exact Hsub|].
  split; [apply Z.eqb_eq; exact Hrc | reflexivity].
Qed.

(** A reported success means that the program was started once, on the
    fixed command line, and exited with code 0; no message comes with it. *)
Theorem run_realesrgan_success_means_exit_0 `{Platform} (base_path : Path)
    (input_path output_path : string) (st : state) (error_msg : option string) :
  outcome (run_realesrgan base_path input_path output_path) st
    = Ok (true, error_msg) ->
  error_msg = None /\
  List.filter is_run (calls (run_realesrgan base_path input_path output_path) st)
    = [E_run (realesrgan_cmd base_path input_path output_path) (Path_str base_path)] /\
  exists fs1 res fs2,
    fs_makedirs (st_fs st) (os_path_dirname output_path) = Ok fs1 /\
    subprocess_run (realesrgan_cmd base_path input_path output_path)
      (Path_str base_path) fs1 = (Ok res, fs2) /\
    returncode res = 0 /\
    st_fs (state_after (run_realesrgan base_path input_path output_path) st) = fs2.
Proof. apply run_success_inversion. Qed.

Lemma run_realesrgan_success_means_exit_0_witness :
  List.filter is_run
    (calls (@run_realesrgan Sample.silent Sample.base "/srv/temp/in.jpg"
              "/srv/results/out.jpg") (State Sample.disk 0)) =
  [E_run (realesrgan_cmd Sample.base "/srv/temp/in.jpg" "/srv/results/out.jpg")
     "/srv"].
Proof.
  exact (proj1 (proj2 (@run_realesrgan_success_means_exit_0 Sample.silent
           Sample.base "/srv/temp/in.jpg" "/srv/results/out.jpg"
           (State Sample.disk 0) None eq_refl))).
Defined.

(** The program is started at most once per invocation: there is no retry. *)
Theorem run_realesrgan_at_most_one_process `{Platform} (base_path : Path)
    (input_path output_path : string) (st : state) :
  (length (List.filter is_run
             (calls (run_realesrgan base_path input_path output_path) st)) <= 1)%nat.
Proof.
  unfold calls. open_invoker.
  destruct (fs_makedirs (st_fs st) (os_path_dirname output_path)) as [fs1|e];
    cbn -[fs_exists]; [|lia].
  destruct (fs_exists fs1 _); cbn; [|lia].
  destruct (subprocess_run _ _ fs1) as [[res|e] fs2]; cbn; [|lia].
  destruct (returncode res =? 0); cbn; lia.
Qed.

Lemma str_or_nonempty (a b : string) : b <> "" -> str_or a b <> "".
Proof.
  intros Hb. unfold str_or.
  destruct (String.eqb_spec a ""); [exact Hb | assumption].
Qed.

(** When the program exits with a code other than 0, the failure detail is
    its stderr, its stdout when stderr is empty, the fixed "unknown error"
    text when both are: it is never empty, and it is printed. *)
Theorem run_realesrgan_failure_detail `{Platform} (base_path : Path)
    (input_path output_path : string) (st : state)
    (fs1 fs2 : gmap (list string) node) (res : completed_process) :
  fs_makedirs (st_fs st) (os_path_dirname output_path) = Ok fs1 ->
  fs_exists fs1 (Path_str (truediv base_path EXE_NAME)) = true ->
  subprocess_run (realesrgan_cmd base_path input_path output_path)
    (Path_str base_path) fs1 = (Ok res, fs2) ->
  returncode res <> 0 ->
  let detail := str_or (stderr res) (str_or (stdout res) MSG_UNKNOWN) in
  outcome (run_realesrgan base_path input_path output_path) st
    = Ok (false, Some detail) /\
  detail <> "" /\
  In (E_print ("Real-ESRGAN error: " +:+ detail))
     (calls (run_realesrgan base_path input_path output_path) st).
Proof.
  intros Hmk Hexe Hsub Hrc detail. subst detail.
  unfold outcome, calls, realesrgan_cmd in *. open_invoker.
  rewrite Hmk. cbn beta iota. cbn [st_fs st_uuid]. rewrite Hexe.
  cbn [negb]. cbn beta iota zeta. cbn [st_fs st_uuid]. rewrite Hsub.
  cbn beta iota.
  destruct (Z.eqb_spec (returncode res) 0) as [Hz|_]; [contradiction|].
  cbn [fst snd app].
  split; [reflexivity|]. split.
  - apply str_or_nonempty, str_or_nonempty. discriminate.
  - do 4 right. left. reflexivity.
Qed.

Lemma run_realesrgan_failure_detail_witness :
  outcome (@run_realesrgan Sample.broken Sample.base "/srv/temp/in.jpg"
             "/srv/results/out.jpg") (State Sample.disk 0)
    = Ok (false, Some "vkCreateInstance failed").
Proof.
  exact (proj1 (@run_realesrgan_failure_detail Sample.broken Sample.base
           "/srv/temp/in.jpg" "/srv/results/out.jpg" (State Sample.disk 0)
           Sample.disk Sample.disk (Completed 255 "" "vkCreateInstance failed")
           eq_refl eq_refl eq_refl ltac:(discriminate))).
Defined.


Ltac calls_ok :=
  repeat (constructor;
          [ cbn [enhance_call_ok];
            first [ exact I | reflexivity | left; reflexivity
                  | right; reflexivity | split; reflexivity ] | ]);
  try apply List.Forall_nil.

(** Every call of the invoker, started on the names of a request, is one
    the request is entitled to. *)
Lemma run_realesrgan_calls_ok `{Platform} (base_path : Path) (n : nat) (st : state) :
  Forall (enhance_call_ok base_path n)
    (calls (run_realesrgan base_path (input_name base_path n)
              (output_name base_path n)) st).
Proof.
  unfold calls. open_invoker.
  destruct (fs_makedirs (st_fs st) _) as [fs1|e]; cbn beta iota;
    cbn [st_fs st_uuid fst snd app]; [|calls_ok].
  destruct (fs_exists fs1 _); cbn [negb]; cbn beta iota zeta;
    cbn [st_fs st_uuid fst snd app]; [|calls_ok].
  destruct (subprocess_run _ _ fs1) as [[res|e] fs2]; cbn beta iota;
    cbn [fst snd app]; [|calls_ok].
  destruct (returncode res =? 0); cbn [fst snd app]; calls_ok.
Qed.

(** ** What every enhance request gets *)

Lemma responses_prints (lines : list string) (r : response) :
  responses (map E_print lines ++ [E_respond r]) = [r].
Proof. induction lines as [|l rest IH]; simpl; [reflexivity | exact IH]. Qed.

Lemma Forall_prints `{Platform} (base_path : Path) (n : nat)
    (lines : list string) (r : response) :
  Forall (enhance_call_ok base_path n) (map E_print lines ++ [E_respond r]).
Proof.
  induction lines as [|l rest IH]; simpl.
  - calls_ok.
  - constructor; [exact I | exact IH].
Qed.

(** The run of a request that is handed to the invoker, with what the
    invoker reported. *)
Lemma handle_invoked `{Platform} (base_path : Path) (req : request)
    (st : state) (n : Z) (text : string) (data image_data : pyvalue)
    (image_bytes : bytes) (fs1 fs2 : gmap (list string) node) :
  py_int (headers_get (req_headers req) "Content-Length") = Ok n ->
  decode_utf8 (rfile_read (rfile req) n) = Ok text ->
  json_loads text = Ok data ->
  py_get data "image" = Ok image_data ->
  truthy image_data = true ->
  decode_step image_data = Ok image_bytes ->
  fs_mkdir (st_fs st) (Path_str (truediv base_path "temp")) = Ok fs1 ->
  fs_write fs1 (input_name base_path (st_uuid st)) image_bytes = Ok fs2 ->
  exists success error_msg,
    outcome (run_realesrgan base_path (input_name base_path (st_uuid st))
               (output_name base_path (st_uuid st)))
            (State fs2 (S (S (st_uuid st)))) = Ok (success, error_msg) /\
    handle_enhance_request base_path req st =
      (Ok tt,
       State (fs_after_unlink
                (st_fs (state_after
                          (run_realesrgan base_path
                             (input_name base_path (st_uuid st))
                             (output_name base_path (st_uuid st)))
                          (State fs2 (S (S (st_uuid st))))))
                (input_name base_path (st_uuid st)))
             (st_uuid (state_after
                         (run_realesrgan base_path
                            (input_name base_path (st_uuid st))
                            (output_name base_path (st_uuid st)))
                         (State fs2 (S (S (st_uuid st)))))),
       [E_mkdir (Path_str (truediv base_path "temp"));
        E_write (input_name base_path (st_uuid st)) image_bytes]
       ++ calls (run_realesrgan base_path (input_name base_path (st_uuid st))
                   (output_name base_path (st_uuid st)))
                (State fs2 (S (S (st_uuid st))))
       ++ [E_unlink (input_name base_path (st_uuid st))]
       ++ (if success then [E_exists (output_name base_path (st_uuid st))] else [])
       ++ [E_respond
             (if success &&
                 fs_exists
                   (fs_after_unlink
                      (st_fs (state_after
                                (run_realesrgan base_path
                                   (input_name base_path (st_uuid st))
                                   (output_name base_path (st_uuid st)))
                                (State fs2 (S (S (st_uuid st))))))
                      (input_name base_path (st_uuid st)))
                   (output_name base_path (st_uuid st))
              then success_response (output_filename_of (st_uuid st))
              else error_response 500 (MSG_FAIL_PREFIX +:+ format_opt error_msg))]).
Proof.
  intros Hlen Hutf Hjson Hget Htrue Hdec Hmk Hwr.
  destruct (run_realesrgan_returns base_path (input_name base_path (st_uuid st))
              (output_name base_path (st_uuid st))
              (State fs2 (S (S (st_uuid st)))))
    as (success & error_msg & Hrun).
  exists success, error_msg. split; [exact Hrun|].
  exact (handle_reaches_invocation base_path req st n text data image_data
           image_bytes fs1 fs2 success error_msg
           Hlen Hutf Hjson Hget Htrue Hdec Hmk Hwr Hrun).
Qed.



(** The handler keeps to its own names: the only directory it makes is
    [temp], the only file it writes or removes is its temp input file, the
    only program it starts is the executable on that file and its output
    name, and it opens no file for reading. *)
Theorem handle_enhance_calls_own_names `{Platform} (base_path : Path)
    (req : request) (st : state) :
  Forall (enhance_call_ok base_path (st_uuid st))
    (calls (handle_enhance_request base_path req) st).
Proof.
  unfold calls at 1.
  destruct (handle_cases base_path req st)
    as [(r & lines & Heq & Hst)
       | [(e & _ & Heq)
         | [(fs1 & image_bytes & e & _ & _ & Heq)
           | (n & text & data & image_data & image_bytes & fs1 & fs2
              & Hlen & Hutf & Hjson & Hget & Htrue & Hdec & Hmk & Hwr)]]].
  - rewrite Heq. apply Forall_prints.
  - rewrite Heq. cbn [snd]. calls_ok.
  - rewrite Heq. cbn [snd]. calls_ok.
  - destruct (handle_invoked base_path req st n text data image_data image_bytes
                fs1 fs2 Hlen Hutf Hjson Hget Htrue Hdec Hmk Hwr)
      as (success & error_msg & _ & Heq).
    rewrite Heq. cbn [snd].
    apply Forall_app. split; [calls_ok|].
    apply Forall_app. split; [apply run_realesrgan_calls_ok|].
    apply Forall_app. split; [calls_ok|].
    apply Forall_app. split; [destruct success; calls_ok | calls_ok].
Qed.

(** A status 200 is only sent when the program was started on the names of
    the request and the output name exists on the disk the request leaves;
    its body names that file under [/results/]. *)
Theorem handle_enhance_200_means_output_exists `{Platform} (base_path : Path)
    (req : request) (st : state) (r : response) :
  In r (responses (calls (handle_enhance_request base_path req) st)) ->
  status r = 200 ->
  fs_exists (st_fs (state_after (handle_enhance_request base_path req) st))
    (output_name base_path (st_uuid st)) = true /\
  r = success_response (output_filename_of (st_uuid st)) /\
  exists cwd,
    In (E_run (realesrgan_cmd base_path (input_name base_path (st_uuid st))
                 (output_name base_path (st_uuid st))) cwd)
       (calls (handle_enhance_request base_path req) st).
Proof.
  unfold calls, state_after.
  destruct (handle_cases base_path req st)
    as [(r' & lines & Heq & Hst)
       | [(e & _ & Heq)
         | [(fs1 & image_bytes & e & _ & _ & Heq)
           | (n & text & data & image_data & image_bytes & fs1 & fs2
              & Hlen & Hutf & Hjson & Hget & Htrue & Hdec & Hmk & Hwr)]]].
  - rewrite Heq. cbn [fst snd]. rewrite responses_prints.
    intros [<- | []] H200. destruct Hst as [Hst | Hst]; rewrite Hst in H200;
      discriminate.
  - rewrite Heq. cbn. intros [<- | []]. discriminate.
  - rewrite Heq. cbn. intros [<- | []]. discriminate.
  - destruct (handle_invoked base_path req st n text data image_data image_bytes
                fs1 fs2 Hlen Hutf Hjson Hget Htrue Hdec Hmk Hwr)
      as (success & error_msg & Hrun & Heq).
    rewrite Heq. cbn [fst snd st_fs]. rewrite !responses_app.
    fold (calls (run_realesrgan base_path (input_name base_path (st_uuid st))
                   (output_name base_path (st_uuid st)))
                (State fs2 (S (S (st_uuid st))))).
    rewrite run_realesrgan_no_response.
    destruct success.
    + cbn [app responses andb].
      destruct (fs_exists _ (output_name base_path (st_uuid st))) eqn:Hout.
      * intros [<- | []] _. split; [reflexivity|]. split; [reflexivity|].
        destruct (run_success_inversion _ _ _ _ _ Hrun)
          as (_ & Hran & _).
        exists (Path_str base_path).
        right. right. apply in_or_app. left.
        assert (Hin : In (E_run (realesrgan_cmd base_path
                                   (input_name base_path (st_uuid st))
                                   (output_name base_path (st_uuid st)))
                                (Path_str base_path))
                         (List.filter is_run
                            (calls (run_realesrgan base_path
                                      (input_name base_path (st_uuid st))
                                      (output_name base_path (st_uuid st)))
                                   (State fs2 (S (S (st_uuid st)))))))
          by (rewrite Hran; left; reflexivity).
        apply List.filter_In in Hin. exact (proj1 Hin).
      * intros [<- | []]. discriminate.
    + cbn. intros [<- | []]. discriminate.
Qed.

Lemma handle_enhance_200_means_output_exists_witness :
  fs_exists
    (st_fs (state_after (@handle_enhance_request Sample.plain Sample.base
                           (Sample.post (Sample.image_body "QUJD")))
                        (State Sample.disk 0)))
    "/srv/results/output_00000000000000000000000000000001.jpg" = true.
Proof.
  exact (proj1 (@handle_enhance_200_means_output_exists Sample.plain Sample.base
           (Sample.post (Sample.image_body "QUJD")) (State Sample.disk 0)
           (@success_response Sample.plain
              "output_00000000000000000000000000000001.jpg")
           (or_introl eq_refl) eq_refl)).
Defined.

(** ** Particular endings of an enhance request *)





(** ** Bodies the handler turns away *)



(** A body that is valid JSON but not an object -- an array, a text, a
    number, [null] -- has no [get]: the answer is status 500 from the last
    handler, not 400, and the disk is not touched. *)
Theorem handle_enhance_json_not_object `{Platform} (base_path : Path)
    (req : request) (st : state) (n : Z) (text : string) (data : pyvalue) :
  py_int (headers_get (req_headers req) "Content-Length") = Ok n ->
  decode_utf8 (rfile_read (rfile req) n) = Ok text ->
  json_loads text = Ok data ->
  (forall d, data <> PyDict d) ->
  exists detail,
    handle_enhance_request base_path req st =
      (Ok tt, st,
       [E_print ("Error in enhance request: " +:+ detail);
        E_respond (error_response 500 (MSG_SERVER_PREFIX +:+ detail))]).
Proof.
  intros Hlen Hutf Hjson Hnd.
  exists "object has no attribute 'get'". open_handler.
  rewrite Hlen, Hutf, Hjson.
  destruct data as [| b | z | f | s | l | d]; try reflexivity.
  exfalso. apply (Hnd d). reflexivity.
Qed.

Lemma handle_enhance_json_not_object_witness :
  map status
    (responses
       (calls (@handle_enhance_request Sample.plain Sample.base (Sample.post "[]"))
              (State Sample.disk 0))) = [500].
Proof.
  destruct (@handle_enhance_json_not_object Sample.plain Sample.base
              (Sample.post "[]") (State Sample.disk 0) 2 "[]" (PyList [])
              eq_refl eq_refl eq_refl ltac:(discriminate)) as [detail Hd].
  unfold calls. rewrite Hd. reflexivity.
Defined.

(** Only what [Content-Length] announces is read: two requests with the
    same headers whose bodies agree on that many bytes are treated alike,
    whatever follows in either body. *)
Theorem handle_enhance_reads_content_length_only `{Platform} (base_path : Path)
    (req req' : request) (st : state) (n : Z) :
  req_headers req' = req_headers req ->
  py_int (headers_get (req_headers req) "Content-Length") = Ok n ->
  0 <= n ->
  firstn (Z.to_nat n) (rfile req') = firstn (Z.to_nat n) (rfile req) ->
  handle_enhance_request base_path req' st = handle_enhance_request base_path req st.
Proof.
  intros Hhdr Hlen Hpos Hsame.
  assert (Hread : rfile_read (rfile req') n = rfile_read (rfile req) n).
  { unfold rfile_read. destruct (Z.ltb_spec n 0); [lia | exact Hsame]. }
  unfold handle_enhance_request, try_except, bind, lift.
  rewrite Hhdr, Hlen. cbn beta iota. rewrite Hread. reflexivity.
Qed.

Lemma handle_enhance_reads_content_length_only_witness :
  @handle_enhance_request Sample.plain Sample.base
    (Request "/enhance" [("Content-Length", "2")] (list_byte_of_string "{}trailing"))
    (State Sample.disk 0) =
  @handle_enhance_request Sample.plain Sample.base
    (Request "/enhance" [("Content-Length", "2")] (list_byte_of_string "{}"))
    (State Sample.disk 0).
Proof.
  apply (@handle_enhance_reads_content_length_only Sample.plain Sample.base
           (Request "/enhance" [("Content-Length", "2")] (list_byte_of_string "{}"))
           (Request "/enhance" [("Content-Length", "2")]
              (list_byte_of_string "{}trailing"))
           (State Sample.disk 0) 2);
    [reflexivity | reflexivity | lia | reflexivity].
Defined.

(** ** The static file server *)

(** The three endings of [serve_file], by what opening the file gives. *)
Lemma serve_file_run `{Platform} (base_path : Path) (file_path : string) (st : state) :
  serve_file base_path file_path st =
    let name := served_name base_path file_path in
    match fs_read (st_fs st) name with
    | Ok content =>
        (Ok tt, st, [E_read name; E_respond (file_response name content)])
    | Err e =>
        if is_FileNotFoundError e
        then (Ok tt, st, [E_read name; E_respond (error_page 404 "File not found")])
        else (Ok tt, st,
              [E_read name;
               E_print ("Error serving file: " +:+ exn_str e);
               E_respond (error_page 500 "Internal server error")])
    end.
Proof.
  unfold serve_file, served_name, try_except, read_file, send_error, print,
    emit, bind, file_response, error_page.
  cbv zeta.
  destruct (fs_read (st_fs st) _) as [content|e]; [reflexivity|].
  destruct (is_FileNotFoundError e); reflexivity.
Qed.

(** Serving a file never raises, leaves the disk as it is, changes nothing
    on it, and gives exactly one answer, with status 200, 404 or 500. *)
Theorem serve_file_read_only `{Platform} (base_path : Path) (file_path : string)
    (st : state) :
  outcome (serve_file base_path file_path) st = Ok tt /\
  state_after (serve_file base_path file_path) st = st /\
  List.filter is_mutation (calls (serve_file base_path file_path) st) = [] /\
  exists r,
    responses (calls (serve_file base_path file_path) st) = [r] /\
    (status r = 200 \/ status r = 404 \/ status r = 500).
Proof.
  unfold outcome, state_after, calls. rewrite serve_file_run. cbv zeta.
  destruct (fs_read (st_fs st) _) as [content|e];
    [|destruct (is_FileNotFoundError e)];
    (repeat split; try reflexivity; eexists; split; [reflexivity|]; tauto).
Qed.

(** A read that fails is answered with one of two fixed texts: the error's
    own text goes to the console only, never to the client.  A missing file
    gives 404; a directory, or a name that runs through a regular file,
    gives 500. *)
Theorem serve_file_error_not_leaked `{Platform} (base_path : Path)
    (file_path : string) (st : state) (e : exn) :
  fs_read (st_fs st) (served_name base_path file_path) = Err e ->
  responses (calls (serve_file base_path file_path) st) =
    [if is_FileNotFoundError e
     then error_page 404 "File not found"
     else error_page 500 "Internal server error"] /\
  List.filter is_print (calls (serve_file base_path file_path) st) =
    (if is_FileNotFoundError e then []
     else [E_print ("Error serving file: " +:+ exn_str e)]).
Proof.
  intros Hread. unfold calls. rewrite serve_file_run. cbv zeta. rewrite Hread.
  destruct (is_FileNotFoundError e); split; reflexivity.
Qed.

Lemma serve_file_error_not_leaked_witness :
  responses (calls (@serve_file Sample.plain Sample.base "results") (State Sample.disk 0))
    = [error_page 500 "Internal server error"] /\
  responses (calls (@serve_file Sample.plain Sample.base "missing.html")
                   (State Sample.disk 0))
    = [error_page 404 "File not found"].
Proof.
  split.
  - exact (proj1 (@serve_file_error_not_leaked Sample.plain Sample.base "results"
             (State Sample.disk 0) EISDIR eq_refl)).
  - exact (proj1 (@serve_file_error_not_leaked Sample.plain Sample.base
             "missing.html" (State Sample.disk 0) ENOENT eq_refl)).
Defined.

(** ** The GET router *)

Lemma results_route (path : string) :
  startswith "/results/" path = true ->
  String.eqb path "/" || String.eqb path "/index.html" = false.
Proof.
  intros Hpre. destruct (startswith_split _ _ Hpre) as [rest ->]. reflexivity.
Qed.

(** The run of a GET, route by route. *)
Lemma do_GET_run `{Platform} (base_path : Path) (req : request) (st : state) :
  do_GET base_path req st =
    let path := urlparse_path (req_path req) in
    if String.eqb path "/" || String.eqb path "/index.html" then
      serve_file base_path "web_interface.html" st
    else if startswith "/results/" path then
      let name := Path_str (results_file_path base_path path) in
      if fs_exists (st_fs st) name then
        match serve_file base_path name st with
        | (r, st', evs) => (r, st', E_exists name :: evs)
        end
      else (Ok tt, st, [E_exists name; E_respond (error_page 404 "File not found")])
    else (Ok tt, st, [E_respond (error_page 404 "Page not found")]).
Proof.
  unfold do_GET. cbv zeta.
  destruct (String.eqb _ "/" || String.eqb _ "/index.html"); [reflexivity|].
  destruct (startswith "/results/" _); [|reflexivity].
  unfold bind, exists_. cbn [st_fs].
  destruct (fs_exists (st_fs st) _); [|reflexivity].
  destruct (serve_file base_path _ st) as [[r st'] evs]. reflexivity.
Qed.


(** A path that is neither the index page nor under [/results/] is
    answered 404 "Page not found" without any look at the disk: [/results]
    without its slash is such a path. *)
Theorem do_GET_unknown_path `{Platform} (base_path : Path) (req : request) (st : state) :
  urlparse_path (req_path req) <> "/" ->
  urlparse_path (req_path req) <> "/index.html" ->
  startswith "/results/" (urlparse_path (req_path req)) = false ->
  do_GET base_path req st =
    (Ok tt, st, [E_respond (error_page 404 "Page not found")]).
Proof.
  intros Hroot Hindex Hres. rewrite do_GET_run. cbv zeta.
  destruct (String.eqb_spec (urlparse_path (req_path req)) "/"); [contradiction|].
  destruct (String.eqb_spec (urlparse_path (req_path req)) "/index.html");
    [contradiction|].
  cbn [orb]. rewrite Hres. reflexivity.
Qed.

Lemma do_GET_unknown_path_witness :
  @do_GET Sample.plain Sample.base (Request "/results" [] []) (State Sample.disk 0) =
  (Ok tt, State Sample.disk 0, [E_respond (error_page 404 "Page not found")]).
Proof.
  apply (@do_GET_unknown_path Sample.plain Sample.base (Request "/results" [] [])
           (State Sample.disk 0));
    [discriminate | discriminate | reflexivity].
Defined.

(** Both index paths serve [web_interface.html] from the base directory,
    whether the base path is absolute or not: its bytes with status 200
    when it is a regular file. *)
Theorem do_GET_index_page `{Platform} (base_path : Path) (req : request)
    (st : state) (content : bytes) :
  urlparse_path (req_path req) = "/" \/
  urlparse_path (req_path req) = "/index.html" ->
  fs_read (st_fs st) (Path_str (truediv base_path "web_interface.html")) = Ok content ->
  do_GET base_path req st =
    (Ok tt, st,
     [E_read (Path_str (truediv base_path "web_interface.html"));
      E_respond
        (file_response (Path_str (truediv base_path "web_interface.html")) content)]).
Proof.
  intros Hpath Hread. rewrite do_GET_run. cbv zeta.
  assert (Hroute : String.eqb (urlparse_path (req_path req)) "/"
                   || String.eqb (urlparse_path (req_path req)) "/index.html" = true).
  { destruct Hpath as [-> | ->]; reflexivity. }
  rewrite Hroute, serve_file_run. cbv zeta.
  change (served_name base_path "web_interface.html")
    with (Path_str (truediv base_path "web_interface.html")).
  rewrite Hread. reflexivity.
Qed.

Lemma do_GET_index_page_witness :
  map payload
    (responses (calls (@do_GET Sample.plain Sample.base
                         (Request "/index.html?lang=ar" [] []))
                      (State Sample.disk 0)))
    = [BodyBytes [x3c; x68; x31; x3e]].
Proof.
  unfold calls.
  rewrite (@do_GET_index_page Sample.plain Sample.base
             (Request "/index.html?lang=ar" [] []) (State Sample.disk 0)
             [x3c; x68; x31; x3e] (or_intror eq_refl) eq_refl).
  reflexivity.
Defined.

(** A name under [/results/] that is a directory -- [/results/] itself,
    once the directory exists -- passes the existence test and fails in
    [open]: the answer is status 500, not 404. *)
Theorem do_GET_results_directory `{Platform} (base_path : Path) (req : request)
    (st : state) (c : list string) :
  absolute base_path = true ->
  startswith "/results/" (urlparse_path (req_path req)) = true ->
  let name := Path_str (results_file_path base_path (urlparse_path (req_path req))) in
  resolve (st_fs st) name = Ok c ->
  node_at (st_fs st) c = Some Dir ->
  do_GET base_path req st =
    (Ok tt, st,
     [E_exists name; E_read name;
      E_print ("Error serving file: " +:+ exn_str EISDIR);
      E_respond (error_page 500 "Internal server error")]).
Proof.
  intros Habs Hpre name Hres Hdir. subst name.
  rewrite do_GET_run. cbv zeta.
  rewrite (results_route _ Hpre), Hpre.
  unfold fs_exists. rewrite Hres, Hdir.
  rewrite serve_file_run. cbv zeta.
  unfold served_name.
  rewrite (Path_str_absolute
             (results_file_path base_path (urlparse_path (req_path req)))
             (truediv_absolute _ _ Habs)).
  cbn [negb]. unfold fs_read. rewrite Hres, Hdir. reflexivity.
Qed.

Lemma do_GET_results_directory_witness :
  map status
    (responses (calls (@do_GET Sample.plain Sample.base (Request "/results/" [] []))
                      (State Sample.disk 0))) = [500].
Proof.
  unfold calls.
  rewrite (@do_GET_results_directory Sample.plain Sample.base
             (Request "/results/" [] []) (State Sample.disk 0) ["srv"; "results"]
             eq_refl eq_refl eq_refl eq_refl).
  reflexivity.
Defined.

(** ** From the enhance answer to the file *)




(** ** Client errors and the disk *)

(** A status 400 comes without any call to the disk or to a process, and
    leaves the state as it was. *)
Theorem handle_enhance_400_touches_nothing `{Platform} (base_path : Path)
    (req : request) (st : state) (r : response) :
  In r (responses (calls (handle_enhance_request base_path req) st)) ->
  status r = 400 ->
  state_after (handle_enhance_request base_path req) st = st /\
  List.filter is_file_io (calls (handle_enhance_request base_path req) st) = [].
Proof.
  unfold calls, state_after.
  destruct (handle_cases base_path req st)
    as [(r' & lines & Heq & Hst)
       | [(e & _ & Heq)
         | [(fs1 & image_bytes & e & _ & _ & Heq)
           | (n & text & data & image_data & image_bytes & fs1 & fs2
              & Hlen & Hutf & Hjson & Hget & Htrue & Hdec & Hmk & Hwr)]]].
  - rewrite Heq. cbn [fst snd]. intros _ _. split; [reflexivity|].
    clear. induction lines as [|l rest IH]; [reflexivity | exact IH].
  - rewrite Heq. cbn. intros [<- | []]. discriminate.
  - rewrite Heq. cbn. intros [<- | []]. discriminate.
  - destruct (handle_invoked base_path req st n text data image_data image_bytes
                fs1 fs2 Hlen Hutf Hjson Hget Htrue Hdec Hmk Hwr)
      as (success & error_msg & _ & Heq).
    rewrite Heq. cbn [fst snd]. rewrite !responses_app.
    fold (calls (run_realesrgan base_path (input_name base_path (st_uuid st))
                   (output_name base_path (st_uuid st)))
                (State fs2 (S (S (st_uuid st))))).
    rewrite run_realesrgan_no_response.
    destruct success; cbn [app responses andb];
      [destruct (fs_exists _ _)|]; intros [<- | []]; discriminate.
Qed.

Lemma handle_enhance_400_touches_nothing_witness :
  state_after (@handle_enhance_request Sample.plain Sample.base (Sample.post "{}"))
    (State Sample.disk 0) = State Sample.disk 0.
Proof.
  exact (proj1 (@handle_enhance_400_touches_nothing Sample.plain Sample.base
           (Sample.post "{}") (State Sample.disk 0)
           (@error_response Sample.plain 400 MSG_NO_IMAGE)
           (or_introl eq_refl) eq_refl)).
Defined.

(** ** The POST router *)


(** ** Worked runs on the sample platform *)

Example b64decode_plain : Sample.b64decode "QUJD" = Ok [x41; x42; x43].
Proof. reflexivity. Qed.

Example b64decode_skips_comma :
  Sample.b64decode "QUJD,REVG" = Ok [x41; x42; x43; x44; x45; x46].
Proof. reflexivity. Qed.

(** With two commas the bytes differ from those of the whole remainder. *)
Example decode_step_two_commas :
  @decode_step Sample.plain (PyStr "data:image/png;base64,QUJD,REVG")
    = Ok [x41; x42; x43].
Proof. reflexivity. Qed.

Example json_loads_object :
  Sample.json_loads (Sample.image_body "QUJD") = Ok (PyDict [("image", PyStr "QUJD")]).
Proof. reflexivity. Qed.

Example json_loads_truncated :
  Sample.json_loads Sample.truncated_body = Err (Exn JSONDecodeError "Expecting value").
Proof. reflexivity. Qed.

Example dirname_of_output :
  os_path_dirname "/srv/results/output_1.jpg" = "/srv/results".
Proof. reflexivity. Qed.

(** A successful request: the temp file is gone, the result is kept. *)
Example enhance_success_disk :
  let st' := state_after (@handle_enhance_request Sample.plain Sample.base
                            (Sample.post (Sample.image_body "QUJD")))
                         (State Sample.disk 0) in
  st_fs st' !! ["srv"; "temp"; "input_00000000000000000000000000000000.jpg"] = None /\
  st_fs st' !! ["srv"; "results"; "output_00000000000000000000000000000001.jpg"]
    = Some (File [x41; x42; x43]).
Proof. split; vm_compute; reflexivity. Qed.

(** Without the executable the answer is 500 and names the missing file. *)
Example enhance_without_executable :
  responses (calls (@handle_enhance_request Sample.plain Sample.base
                      (Sample.post (Sample.image_body "QUJD")))
                   (State Sample.bare_disk 0)) =
    [@error_response Sample.plain 500 (MSG_FAIL_PREFIX +:+ MSG_EXE_MISSING)].
Proof. vm_compute. reflexivity. Qed.

(** A JSON array has no [get]: the last handler answers. *)
Example enhance_json_array :
  map status
    (responses (calls (@handle_enhance_request Sample.plain Sample.base
                         (Sample.post "[]"))
                      (State Sample.disk 0))) = [500].
Proof. reflexivity. Qed.
